(** * Session authentication handler of go-toolbelt (package http/auth)

    A shallow embedding of [auth.Handler] and of its methods [NewHandler],
    [Authorize], [SaveUserSession], [Authenticate], [AuthenticateRequest]
    and [Logout], followed by the properties of the handler.

    The collaborators of the handler are interfaces in the Go code
    ([Auther], [sessions.Store], [ErrorHandler], [http.Handler]); they are
    records of functions here.  Session objects are reached through
    pointers in Go, so they live in a heap that the methods thread through
    a small state monad, next to the response under construction and the
    trace of the calls made to the collaborators. *)

From Stdlib Require Import ZArith Lia DecimalString DecimalZ DecimalPos.
From stdpp Require Import base option gmap strings list fin_maps.

Local Open Scope string_scope.
Local Open Scope Z_scope.

(** ** Time *)

Module time.

(** An instant ([time.Time]) is a number of nanoseconds on an unbounded
    line; a [Duration] is an [int64] count of nanoseconds. *)
Definition Time := Z.
Definition Duration := Z.

Definition Nanosecond : Duration := 1.
Definition Second : Duration := 1000000000 * Nanosecond.
Definition Minute : Duration := 60 * Second.

Definition MinInt64 : Z := - 2 ^ 63.
Definition MaxInt64 : Z := 2 ^ 63 - 1.

(** Two's complement wrap-around of [int64] arithmetic. *)
Definition wrap64 (z : Z) : Z := (z + 2 ^ 63) mod 2 ^ 64 - 2 ^ 63.

(** Unary minus on a [Duration], as in [-ah.lifetime]. *)
Definition neg (d : Duration) : Duration := wrap64 (- d).

(** [t.Add(d)] *)
Definition Add (t : Time) (d : Duration) : Time := t + d.

(** [t.After(u)]: t is later than u. *)
Definition After (t u : Time) : bool := u <? t.

End time.

(** ** Errors *)

(** Go errors are compared by identity: the two sentinels of the package
    are constructors of their own, and so are the two errors the package
    builds in place; every other error value is foreign, whatever its
    text. *)
Inductive error : Type :=
| ErrBadLogin
| ErrNotAuthorized
| errMethodShouldBePOST
| errNoStore
| errForeign (msg : string).

#[global] Instance error_eq_dec : EqDecision error.
Proof. solve_decision. Defined.

(** [err.Error()] *)
Definition Error (e : error) : string :=
  match e with
  | ErrBadLogin => "Bad Login"
  | ErrNotAuthorized => "Not Authorized"
  | errMethodShouldBePOST => "method should be POST"
  | errNoStore => "please set a session.Store"
  | errForeign msg => msg
  end.

(** ** Session values *)

(** Keys of [session.Values] ([map[interface{}]interface{}]): the
    package's own [sessionKey] type, or the strings and integers other
    users of the same session write. *)
Inductive Key : Type :=
| sessionKey (n : N)
| stringKey (s : string)
| intKey (z : Z).

#[global] Instance Key_eq_dec : EqDecision Key.
Proof. solve_decision. Defined.

#[global] Program Instance Key_countable : Countable Key :=
  inj_countable'
    (fun k => match k with
              | sessionKey n => inl n
              | stringKey s => inr (inl s)
              | intKey z => inr (inr z)
              end)
    (fun x => match x with
              | inl n => sessionKey n
              | inr (inl s) => stringKey s
              | inr (inr z) => intKey z
              end) _.
Next Obligation. by intros []. Qed.

(** The const block of the package starts with [defaultSessionName], so
    [iota] is 1 at [userKey] and 2 at [userTimeout]. *)
Definition defaultSessionName : string := "AuthSession".
Definition userKey : Key := sessionKey 1.
Definition userTimeout : Key := sessionKey 2.

(** Dynamic values ([interface{}]).  The handler looks at a value only in
    the type assertion [t.(time.Time)]. *)
Inductive Value : Type :=
| VNil
| VTime (t : time.Time)
| VInt (n : Z)
| VString (s : string).

#[global] Instance Value_eq_dec : EqDecision Value.
Proof. solve_decision. Defined.

(** [sessions.Options] *)
Record SessionOptions : Type := {
  Path : string;
  Domain : string;
  MaxAge : Z;
  Secure : bool;
  HttpOnly : bool
}.

(** [sessions.Session], the part the handler and the stores share. *)
Record Session : Type := {
  IsNew : bool;
  Values : gmap Key Value;
  Options : SessionOptions
}.

(** ** Requests and responses *)

(** [url.Values] and its [Get]: the first value of the key, or the empty
    string. *)
Definition url_Values := gmap string (list string).

Definition url_Get (v : url_Values) (key : string) : string :=
  match v !! key with
  | Some (x :: _) => x
  | _ => ""
  end.

(** What the handler reads of an [*http.Request]: the method, and the
    outcome of [r.ParseForm()] (the parsed [r.Form], or the error).  The
    cookies are for the session store. *)
Record Request : Type := {
  Method : string;
  ParseForm : url_Values + error;
  Cookie : list string
}.

(** An [http.ResponseWriter] as a recorder: the status is fixed by the
    first [WriteHeader]. *)
Record Response : Type := {
  Code : option Z;
  Header : gmap string (list string);
  Body : string
}.

Definition StatusOK : Z := 200.
Definition StatusSeeOther : Z := 303.
Definition StatusBadRequest : Z := 400.
Definition StatusUnauthorized : Z := 401.
Definition StatusInternalServerError : Z := 500.

Definition newResponse : Response :=
  {| Code := None; Header := ∅; Body := "" |}.

Definition Header_Set (k v : string) (w : Response) : Response :=
  {| Code := Code w; Header := <[k := [v]]> (Header w); Body := Body w |}.

Definition WriteHeader (code : Z) (w : Response) : Response :=
  match Code w with
  | Some _ => w
  | None => {| Code := Some code; Header := Header w; Body := Body w |}
  end.

Definition Write (s : string) (w : Response) : Response :=
  let w := WriteHeader StatusOK w in
  {| Code := Code w; Header := Header w; Body := Body w +:+ s |}.

Definition newline : string := String (Ascii.ascii_of_nat 10) "".

(** [http.Error(w, msg, code)]: plain-text headers, the status, and the
    message followed by a newline. *)
Definition http_Error (msg : string) (code : Z) (w : Response) : Response :=
  let w := Header_Set "Content-Type" "text/plain; charset=utf-8" w in
  let w := Header_Set "X-Content-Type-Options" "nosniff" w in
  let w := WriteHeader code w in
  Write (msg +:+ newline) w.

(** [http.Redirect(w, r, url, code)]: the Location header and the status.
    The library resolves a relative target against the path of the
    request and, for GET, adds a short HTML body; what is recorded here is
    the target and the status the caller passes. *)
Definition http_Redirect (url : string) (code : Z) (w : Response) : Response :=
  let w := Header_Set "Location" url w in
  WriteHeader code w.

(** ** Collaborators *)

(** [Auther]: the credential check. *)
Record Auther : Type := {
  Check : string → string → Value * option error
}.

Definition loc := positive.

(** [sessions.Store].  [Get] hands out a pointer to the session object of
    the request, or an error; [Save] writes the session into the response
    and may fail. *)
Record Store : Type := {
  Get : Request → string → loc + error;
  Save : Request → Session → Response → Response * option error
}.

(** [ErrorHandler] is [func(w, r, err, code)]; an [http.Handler] serves a
    request into a response. *)
Definition ErrorHandler := Request → error → Z → Response → Response.
Definition http_Handler := Request → Response → Response.

(** [Handler].  The three fields that [NewHandler] tests against nil are
    options. *)
Record Handler : Type := {
  auther : Auther;
  store : option Store;
  errorHandler : option ErrorHandler;
  notAuthorizedHandler : option http_Handler;
  redirLanding : string;
  redirLogout : string;
  lifetime : time.Duration;
  sessionName : string
}.

(** An [Option] takes a pointer to the handler under construction and
    returns an error: here, the handler as the option leaves it, and the
    error. *)
Definition Option := Handler → Handler * option error.

(** ** The state the methods run in *)

(** The calls a method makes to its collaborators, in order. *)
Inductive Event : Type :=
| EvGet (name : string)
| EvSave (s : Session)
| EvCheck (user pass : string)
| EvErrorHandler (err : error) (code : Z)
| EvNotAuthorized
| EvNext
| EvRedirect (url : string) (code : Z).

Record World : Type := {
  heap : gmap loc Session;
  resp : Response;
  trace : list Event
}.

(** A computation either panics (a nil dereference; [None]) or returns a
    value and the next state. *)
Definition M (A : Type) : Type := World → option (A * World).

#[global] Instance M_ret : MRet M := fun A a σ => Some (a, σ).
#[global] Instance M_bind : MBind M := fun A B f m σ =>
  match m σ with
  | Some (a, σ') => f a σ'
  | None => None
  end.

Definition deref {A : Type} (x : option A) : M A := fun σ =>
  match x with
  | Some a => Some (a, σ)
  | None => None
  end.

Definition emit (e : Event) : M unit := fun σ =>
  Some (tt, {| heap := heap σ; resp := resp σ; trace := trace σ ++ [e] |}).

Definition modifyResp (f : Response → Response) : M unit := fun σ =>
  Some (tt, {| heap := heap σ; resp := f (resp σ); trace := trace σ |}).

Definition load (l : loc) : M Session := fun σ =>
  match heap σ !! l with
  | Some s => Some (s, σ)
  | None => None
  end.

Definition assign (l : loc) (s : Session) : M unit := fun σ =>
  Some (tt, {| heap := <[l := s]> (heap σ); resp := resp σ; trace := trace σ |}).

(** [session.Values[k] = v] *)
Definition setValue (l : loc) (k : Key) (v : Value) : M unit :=
  s ← load l;
  assign l {| IsNew := IsNew s; Values := <[k := v]> (Values s); Options := Options s |}.

(** [session.Options.MaxAge = n] *)
Definition setMaxAge (l : loc) (n : Z) : M unit :=
  s ← load l;
  let o := Options s in
  assign l {| IsNew := IsNew s; Values := Values s;
              Options := {| Path := Path o; Domain := Domain o; MaxAge := n;
                            Secure := Secure o; HttpOnly := HttpOnly o |} |}.

(** [ah.store.Get(r, name)] *)
Definition store_Get (ah : Handler) (r : Request) (name : string) : M (loc + error) :=
  st ← deref (store ah);
  emit (EvGet name);;
  mret (Get st r name).

(** The store writes into the response and returns its error. *)
Definition store_Save (st : Store) (r : Request) (s : Session) : M (option error) :=
  fun σ =>
    let '(w, err) := Save st r s (resp σ) in
    Some (err, {| heap := heap σ; resp := w; trace := trace σ |}).

(** [session.Save(r, w)]: the store saves the session as it is now. *)
Definition session_Save (ah : Handler) (r : Request) (l : loc) : M (option error) :=
  st ← deref (store ah);
  s ← load l;
  emit (EvSave s);;
  store_Save st r s.

(** [ah.auther.Check(user, pass)] *)
Definition auther_Check (ah : Handler) (user pass : string) : M (Value * option error) :=
  emit (EvCheck user pass);;
  mret (Check (auther ah) user pass).

(** [ah.errorHandler(w, r, err, code)] *)
Definition call_errorHandler (ah : Handler) (r : Request) (err : error) (code : Z) : M unit :=
  eh ← deref (errorHandler ah);
  emit (EvErrorHandler err code);;
  modifyResp (eh r err code).

(** [http.Redirect(w, r, url, code)] *)
Definition redirect (url : string) (code : Z) : M unit :=
  emit (EvRedirect url code);;
  modifyResp (http_Redirect url code).

(** ** NewHandler *)

Definition zeroHandler (a : Auther) : Handler :=
  {| auther := a; store := None; errorHandler := None;
     notAuthorizedHandler := None; redirLanding := ""; redirLogout := "";
     lifetime := 0; sessionName := "" |}.

Definition set_lifetime (d : time.Duration) (ah : Handler) : Handler :=
  {| auther := auther ah; store := store ah; errorHandler := errorHandler ah;
     notAuthorizedHandler := notAuthorizedHandler ah;
     redirLanding := redirLanding ah; redirLogout := redirLogout ah;
     lifetime := d; sessionName := sessionName ah |}.

Definition set_redirLanding (p : string) (ah : Handler) : Handler :=
  {| auther := auther ah; store := store ah; errorHandler := errorHandler ah;
     notAuthorizedHandler := notAuthorizedHandler ah;
     redirLanding := p; redirLogout := redirLogout ah;
     lifetime := lifetime ah; sessionName := sessionName ah |}.

Definition set_redirLogout (p : string) (ah : Handler) : Handler :=
  {| auther := auther ah; store := store ah; errorHandler := errorHandler ah;
     notAuthorizedHandler := notAuthorizedHandler ah;
     redirLanding := redirLanding ah; redirLogout := p;
     lifetime := lifetime ah; sessionName := sessionName ah |}.

Definition set_sessionName (n : string) (ah : Handler) : Handler :=
  {| auther := auther ah; store := store ah; errorHandler := errorHandler ah;
     notAuthorizedHandler := notAuthorizedHandler ah;
     redirLanding := redirLanding ah; redirLogout := redirLogout ah;
     lifetime := lifetime ah; sessionName := n |}.

Definition set_errorHandler (eh : ErrorHandler) (ah : Handler) : Handler :=
  {| auther := auther ah; store := store ah; errorHandler := Some eh;
     notAuthorizedHandler := notAuthorizedHandler ah;
     redirLanding := redirLanding ah; redirLogout := redirLogout ah;
     lifetime := lifetime ah; sessionName := sessionName ah |}.

Definition set_notAuthorizedHandler (h : http_Handler) (ah : Handler) : Handler :=
  {| auther := auther ah; store := store ah; errorHandler := errorHandler ah;
     notAuthorizedHandler := Some h;
     redirLanding := redirLanding ah; redirLogout := redirLogout ah;
     lifetime := lifetime ah; sessionName := sessionName ah |}.

Definition set_store (st : Store) (ah : Handler) : Handler :=
  {| auther := auther ah; store := Some st; errorHandler := errorHandler ah;
     notAuthorizedHandler := notAuthorizedHandler ah;
     redirLanding := redirLanding ah; redirLogout := redirLogout ah;
     lifetime := lifetime ah; sessionName := sessionName ah |}.

(** The loop over the options: the first error ends it. *)
Fixpoint applyOptions (options : list Option) (ah : Handler) : Handler + error :=
  match options with
  | [] => inl ah
  | o :: rest =>
      match o ah with
      | (_, Some err) => inr err
      | (ah', None) => applyOptions rest ah'
      end
  end.

(** The default error handler: [http.Error(w, err.Error(), code)]. *)
Definition defaultErrorHandler : ErrorHandler :=
  fun _ err code w => http_Error (Error err) code w.

(** The default not-authorized handler, a closure over the handler under
    construction.  Its error handler is set by the time the closure is
    built, so the nil case is dead. *)
Definition defaultNotAuthorizedHandler (ah : Handler) : http_Handler :=
  fun r w =>
    match errorHandler ah with
    | Some eh => eh r ErrNotAuthorized StatusUnauthorized w
    | None => w
    end.

Definition NewHandler (a : Auther) (options : list Option) : Handler + error :=
  match applyOptions options (zeroHandler a) with
  | inr err => inr err
  | inl ah =>
      match store ah with
      | None => inr errNoStore
      | Some _ =>
          let ah := if decide (lifetime ah = 0)
                    then set_lifetime (5 * time.Minute) ah else ah in
          let ah := if decide (redirLanding ah = "")
                    then set_redirLanding "/" ah else ah in
          let ah := if decide (redirLogout ah = "")
                    then set_redirLogout (redirLanding ah) ah else ah in
          let ah := if decide (sessionName ah = "")
                    then set_sessionName defaultSessionName ah else ah in
          let ah := match errorHandler ah with
                    | None => set_errorHandler defaultErrorHandler ah
                    | Some _ => ah
                    end in
          let ah := match notAuthorizedHandler ah with
                    | None => set_notAuthorizedHandler (defaultNotAuthorizedHandler ah) ah
                    | Some _ => ah
                    end in
          inl ah
      end
  end.

(** ** The methods *)

(** [time.Now()] is read once in each method; it is the argument [now]. *)

Definition SaveUserSession (ah : Handler) (now : time.Time) (r : Request)
    (userData : Value) : M (option error) :=
  res ← store_Get ah r (sessionName ah);
  match res with
  | inr err => mret (Some err)
  | inl session =>
      setValue session userKey userData;;
      setValue session userTimeout (VTime (time.Add now (lifetime ah)));;
      err ← session_Save ah r session;
      match err with
      | Some err => mret (Some err)
      | None => mret None
      end
  end.

Definition Authorize (ah : Handler) (now : time.Time) (r : Request) : M unit :=
  if decide (Method r ≠ "POST") then
    call_errorHandler ah r errMethodShouldBePOST StatusBadRequest
  else
    match ParseForm r with
    | inr err => call_errorHandler ah r err StatusInternalServerError
    | inl form =>
        let user := url_Get form "user" in
        let pass := url_Get form "pass" in
        if decide (user = "" ∨ pass = "") then
          call_errorHandler ah r ErrBadLogin StatusBadRequest
        else
          '(id, err) ← auther_Check ah user pass;
          match err with
          | Some err =>
              let code := if decide (err = ErrBadLogin)
                          then StatusBadRequest
                          else StatusInternalServerError in
              call_errorHandler ah r err code
          | None =>
              err ← SaveUserSession ah now r id;
              match err with
              | Some err => call_errorHandler ah r err StatusInternalServerError
              | None => redirect (redirLanding ah) StatusSeeOther
              end
          end
    end.

Definition AuthenticateRequest (ah : Handler) (now : time.Time) (r : Request)
    : M (Value * option error) :=
  res ← store_Get ah r (sessionName ah);
  match res with
  | inr err => mret (VNil, Some err)
  | inl session =>
      s ← load session;
      if IsNew s then mret (VNil, Some ErrNotAuthorized)
      else
        match Values s !! userKey with
        | None => mret (VNil, Some ErrNotAuthorized)
        | Some user =>
            match Values s !! userTimeout with
            | None => mret (VNil, Some ErrNotAuthorized)
            | Some (VTime tout) =>
                if time.After now tout then mret (VNil, Some ErrNotAuthorized)
                else mret (user, None)
            | Some _ => mret (VNil, Some ErrNotAuthorized)
            end
        end
  end.

Definition Authenticate (ah : Handler) (next : http_Handler) (now : time.Time)
    (r : Request) : M unit :=
  '(_, err) ← AuthenticateRequest ah now r;
  match err with
  | Some _ =>
      h ← deref (notAuthorizedHandler ah);
      emit EvNotAuthorized;;
      modifyResp (h r)
  | None =>
      emit EvNext;;
      modifyResp (next r)
  end.

Definition Logout (ah : Handler) (now : time.Time) (r : Request) : M unit :=
  res ← store_Get ah r (sessionName ah);
  match res with
  | inr err => call_errorHandler ah r err StatusInternalServerError
  | inl session =>
      setValue session userTimeout (VTime (time.Add now (time.neg (lifetime ah))));;
      setMaxAge session (-1);;
      err ← session_Save ah r session;
      match err with
      | Some err => call_errorHandler ah r err StatusInternalServerError
      | None => redirect (redirLogout ah) StatusSeeOther
      end
  end.

(** ** The invariant of the specification *)

(** A session is authenticated, in the words of the specification: it is
    not new, the identity key is present, the expiry key is present and
    holds a timestamp, and the current time is strictly before it. *)
Definition authenticated (now : time.Time) (s : Session) : Prop :=
  IsNew s = false ∧
  is_Some (Values s !! userKey) ∧
  ∃ t, Values s !! userTimeout = Some (VTime t) ∧ now < t.

(** The same with the bound the code tests: the current time is not after
    the expiry timestamp. *)
Definition unexpired (now : time.Time) (s : Session) : Prop :=
  IsNew s = false ∧
  is_Some (Values s !! userKey) ∧
  ∃ t, Values s !! userTimeout = Some (VTime t) ∧ now ≤ t.

(** The state after some more calls to the collaborators. *)
Definition logged (es : list Event) (σ : World) : World :=
  {| heap := heap σ; resp := resp σ; trace := trace σ ++ es |}.

(** The state after a call of the error handler. *)
Definition handled (eh : ErrorHandler) (r : Request) (err : error) (code : Z)
    (σ : World) : World :=
  {| heap := heap σ; resp := eh r err code (resp σ);
     trace := trace σ ++ [EvErrorHandler err code] |}.

(** The state after a redirect. *)
Definition redirected (url : string) (code : Z) (σ : World) : World :=
  {| heap := heap σ; resp := http_Redirect url code (resp σ);
     trace := trace σ ++ [EvRedirect url code] |}.

(** The session object after the two writes of [SaveUserSession]. *)
Definition loggedIn (expiry : time.Time) (userData : Value) (s : Session) : Session :=
  {| IsNew := IsNew s;
     Values := <[userTimeout := VTime expiry]> (<[userKey := userData]> (Values s));
     Options := Options s |}.

(** The session object after the two writes of [Logout]. *)
Definition loggedOut (expiry : time.Time) (s : Session) : Session :=
  {| IsNew := IsNew s;
     Values := <[userTimeout := VTime expiry]> (Values s);
     Options := {| Path := Path (Options s); Domain := Domain (Options s);
                   MaxAge := -1; Secure := Secure (Options s);
                   HttpOnly := HttpOnly (Options s) |} |}.

(** The state after the session at [l] was written, its store was asked
    for it and to save it, and the store left the response [w]. *)
Definition saved (name : string) (l : loc) (s : Session) (w : Response)
    (σ : World) : World :=
  {| heap := <[l := s]> (heap σ); resp := w;
     trace := trace σ ++ [EvGet name; EvSave s] |}.

(** The calls made between two states of one run. *)
Definition new_events (σ σ' : World) : list Event :=
  drop (length (trace σ)) (trace σ').

(** A session as the store presents it on a later request of the client
    that holds its cookie: the values that were saved, in a session that is
    not new. *)
Definition presents (s' s : Session) : Prop :=
  IsNew s' = false ∧ Values s' = Values s.

(** ** Sample collaborators

    The verifier of the package's tests, and a store that keeps the
    session of every request at one address and announces a cookie. *)
Module sample.

Definition testAuthProvider : Auther :=
  {| Check := fun u p =>
       if decide (u = "testUser" ∧ p = "testPassw")
       then (VInt 23, None) else (VNil, Some ErrBadLogin) |}.

Definition nilAuthProvider : Auther :=
  {| Check := fun _ _ => (VNil, None) |}.

Definition cookieStore : Store :=
  {| Get := fun _ _ => inl 1%positive;
     Save := fun _ _ w => (Header_Set "Set-Cookie" "AuthSession=MTU" w, None) |}.

Definition brokenStore : Store :=
  {| Get := fun _ _ => inr (errForeign "securecookie: the value is not valid");
     Save := fun _ _ w => (w, Some (errForeign "securecookie: the value is too long")) |}.

Definition SetStore (st : Store) : Option := fun ah => (set_store st ah, None).

Definition SetLifetime (d : time.Duration) : Option := fun ah => (set_lifetime d ah, None).

Definition SetLanding (p : string) : Option := fun ah => (set_redirLanding p ah, None).

Definition failing : Option := fun ah => (ah, Some (errForeign "option failed")).

(** The handler of the package's tests. *)
Definition testHandler : Handler :=
  match NewHandler testAuthProvider [SetStore cookieStore; SetLanding "/landingRedir"] with
  | inl ah => ah
  | inr _ => zeroHandler testAuthProvider
  end.

Definition handler (a : Auther) (d : time.Duration) : Handler :=
  match NewHandler a [SetStore cookieStore; SetLifetime d] with
  | inl ah => ah
  | inr _ => zeroHandler a
  end.

Definition options : SessionOptions :=
  {| Path := "/"; Domain := ""; MaxAge := 0; Secure := false; HttpOnly := false |}.

Definition session (new : bool) (vs : gmap Key Value) : Session :=
  {| IsNew := new; Values := vs; Options := options |}.

Definition world (s : Session) : World :=
  {| heap := {[ 1%positive := s ]}; resp := newResponse; trace := [] |}.

Definition login (user pass : string) : Request :=
  {| Method := "POST";
     ParseForm := inl {[ "user" := [user]; "pass" := [pass] ]};
     Cookie := [] |}.

Definition get (cookie : list string) : Request :=
  {| Method := "GET"; ParseForm := inl ∅; Cookie := cookie |}.

End sample.

(** The calls that answer the request: the error handler and the
    redirect. *)
Definition responds (e : Event) : bool :=
  match e with
  | EvErrorHandler _ _ | EvRedirect _ _ => true
  | _ => false
  end.

(** ** Package encodedTime *)

Module encodedTime.

(** [Millisecs] is [time.Time] under another name. *)
Definition Millisecs := time.Time.

(** [time.Unix(sec, nsec)] *)
Definition Unix (sec nsec : Z) : time.Time := sec * 1000000000 + nsec.

(** The two parts of an instant: the seconds since the epoch, and the
    nanoseconds within the second, between 0 and 999999999. *)
Definition unixSec (t : time.Time) : Z := t / 1000000000.
Definition nsec (t : time.Time) : Z := t mod 1000000000.

(** [t.UnixMilli()], which is [t.unixSec()*1e3 + int64(t.nsec())/1e6] in
    [int64] arithmetic. *)
Definition UnixMilli (t : time.Time) : Z :=
  time.wrap64 (time.wrap64 (unixSec t * 1000) + nsec t / 1000000).

(** [strconv.FormatInt(i, 10)] *)
Definition FormatInt (i : Z) : string := NilZero.string_of_int (Z.to_int i).

Definition NewMillisecs (secs : Z) : Millisecs := Unix secs 0.

Definition MarshalJSON (t : Millisecs) : string * option error :=
  let milliseconds := UnixMilli t in
  (FormatInt milliseconds, None).

End encodedTime.

(** ** Package render: the options of a Renderer *)

Module render.

(** A template function, an injector of one, a logger and an error
    handler, as far as the options handle them. *)
Definition Func := list Value → Value + error.
Definition FuncInjector := Request → Func.
Definition Logger := list Value → option error.
Definition ErrorHandlerFunc := Request → Z → error → Response → Response.

(** The fields of [Renderer] that the options write.  The map of
    injectors is allocated before the options run: the injection test of
    the package registers one through the constructor. *)
Record Renderer : Type := {
  templateFiles : list string;
  baseTemplates : list string;
  errorTemplate : string;
  funcMap : gmap string Func;
  tplFuncInjectors : gmap string FuncInjector;
  log : option Logger;
  errHandler : option ErrorHandlerFunc
}.

Definition Option := Renderer → Renderer * option error.

Definition AddTemplates (files : list string) : Option := fun r =>
  if decide (length files = 0%nat) then
    (r, Some (errForeign "render: no templates passed"))
  else
    ({| templateFiles := files; baseTemplates := baseTemplates r;
        errorTemplate := errorTemplate r; funcMap := funcMap r;
        tplFuncInjectors := tplFuncInjectors r; log := log r;
        errHandler := errHandler r |}, None).

Definition BaseTemplates (bases : list string) : Option := fun r =>
  ({| templateFiles := templateFiles r; baseTemplates := bases;
      errorTemplate := errorTemplate r; funcMap := funcMap r;
      tplFuncInjectors := tplFuncInjectors r; log := log r;
      errHandler := errHandler r |}, None).

Definition ErrorTemplate (name : string) : Option := fun r =>
  ({| templateFiles := templateFiles r; baseTemplates := baseTemplates r;
      errorTemplate := name; funcMap := funcMap r;
      tplFuncInjectors := tplFuncInjectors r; log := log r;
      errHandler := errHandler r |}, None).

Definition FuncMap (m : gmap string Func) : Option := fun r =>
  ({| templateFiles := templateFiles r; baseTemplates := baseTemplates r;
      errorTemplate := errorTemplate r; funcMap := m;
      tplFuncInjectors := tplFuncInjectors r; log := log r;
      errHandler := errHandler r |}, None).

Definition InjectTemplateFunc (name : string) (fn : FuncInjector) : Option := fun r =>
  match tplFuncInjectors r !! name with
  | Some _ =>
      (r, Some (errForeign ("injection " +:+ name +:+ " name already taken")))
  | None =>
      ({| templateFiles := templateFiles r; baseTemplates := baseTemplates r;
          errorTemplate := errorTemplate r; funcMap := funcMap r;
          tplFuncInjectors := <[name := fn]> (tplFuncInjectors r); log := log r;
          errHandler := errHandler r |}, None)
  end.

Definition SetLogger (l : option Logger) : Option := fun r =>
  match l with
  | None => (r, Some (errForeign "render: nil logger passed"))
  | Some _ =>
      ({| templateFiles := templateFiles r; baseTemplates := baseTemplates r;
          errorTemplate := errorTemplate r; funcMap := funcMap r;
          tplFuncInjectors := tplFuncInjectors r; log := l;
          errHandler := errHandler r |}, None)
  end.

Definition SetErrorHandler (fn : option ErrorHandlerFunc) : Option := fun r =>
  match fn with
  | None => (r, Some (errForeign "render: nil ErrorHandlerFunc passed"))
  | Some _ =>
      ({| templateFiles := templateFiles r; baseTemplates := baseTemplates r;
          errorTemplate := errorTemplate r; funcMap := funcMap r;
          tplFuncInjectors := tplFuncInjectors r; log := log r;
          errHandler := fn |}, None)
  end.

(** A renderer with nothing configured. *)
Definition empty : Renderer :=
  {| templateFiles := []; baseTemplates := []; errorTemplate := "";
     funcMap := ∅; tplFuncInjectors := ∅; log := None; errHandler := None |}.

End render.

(** ** Package templates: the package-level renderer *)

Module templates.

(** [tmpl.ExecuteTemplate(buf, "base", data)]: what it writes into the
    buffer, and its error. *)
Definition Template := Value → string * option error.

Definition assetFunc := string → string + error.

(** A named route builds a path from parameters, or fails; a router finds
    routes by name. *)
Record Route : Type := { URLPath : list string → string + error }.
Record Router : Type := { Router_Get : string → option Route }.

(** The variables of the package. *)
Record State : Type := {
  asset : option assetFunc;
  templateFiles : list string;
  baseTemplateFiles : list string;
  templates : gmap string Template;
  appRouter : option Router
}.

Definition SetBaseTemplates (fn : option assetFunc) (files : list string)
    (st : State) : State :=
  {| asset := fn; templateFiles := templateFiles st;
     baseTemplateFiles := (baseTemplateFiles st ++ files)%list;
     templates := templates st; appRouter := appRouter st |}.

Definition AddTemplates (files : list string) (st : State) : State :=
  {| asset := asset st; templateFiles := (templateFiles st ++ files)%list;
     baseTemplateFiles := baseTemplateFiles st;
     templates := templates st; appRouter := appRouter st |}.

Definition SetAppRouter (r : option Router) (st : State) : State :=
  {| asset := asset st; templateFiles := templateFiles st;
     baseTemplateFiles := baseTemplateFiles st;
     templates := templates st; appRouter := r |}.



(** [PlainError(w, statusCode, err)] *)
Definition PlainError (statusCode : Z) (err : error) (w : Response) : Response :=
  http_Error (Error err) statusCode w.

(** The parameters of [urlTo], by the cases of its type switch. *)
Inductive Param : Type :=
| PString (v : string)
| PInt (v : Z)
| PInt64 (v : Z)
| POther (v : Value).

(** The loop over the parameters; [None] when [CheckFatal] ends the
    program on a parameter of another type. *)
Fixpoint urlParams (ps : list Param) (params : list string) : option (list string) :=
  match ps with
  | [] => Some params
  | PString v :: ps => urlParams ps (params ++ [v])%list
  | PInt v :: ps => urlParams ps (params ++ [encodedTime.FormatInt v])%list
  | PInt64 v :: ps => urlParams ps (params ++ [encodedTime.FormatInt v])%list
  | POther _ :: _ => None
  end.

(** [urlTo(routeName, ps...)]: the path, the empty URL when there is no
    such route or the route fails, or no return at all ([None]) when the
    router is nil or a parameter is of another type. *)
Definition urlTo (st : State) (routeName : string) (ps : list Param) : option string :=
  match appRouter st with
  | None => None
  | Some router =>
      match Router_Get router routeName with
      | None => Some ""
      | Some route =>
          match urlParams ps [] with
          | None => None
          | Some params =>
              match URLPath route params with
              | inr _ => Some ""
              | inl u => Some u
              end
          end
      end
  end.

End templates.

(** ** Running the primitives *)

Ltac run :=
  repeat (progress (
    unfold SaveUserSession, store_Get, session_Save, store_Save, auther_Check,
      call_errorHandler, redirect, setValue, setMaxAge, load, assign, emit,
      modifyResp, deref, logged, mbind, M_bind, mret, M_ret;
    cbn beta iota delta [heap resp trace])).

Lemma AuthenticateRequest_Get_error ah st now r σ err :
  store ah = Some st →
  Get st r (sessionName ah) = inr err →
  AuthenticateRequest ah now r σ
  = Some ((VNil, Some err), logged [EvGet (sessionName ah)] σ).
Proof.
  intros Hst Hget. unfold AuthenticateRequest. run.
  rewrite Hst. run. by rewrite Hget.
Qed.

Lemma AuthenticateRequest_accept ah st now r σ l s id t :
  store ah = Some st →
  Get st r (sessionName ah) = inl l →
  heap σ !! l = Some s →
  IsNew s = false →
  Values s !! userKey = Some id →
  Values s !! userTimeout = Some (VTime t) →
  now ≤ t →
  AuthenticateRequest ah now r σ
  = Some ((id, None), logged [EvGet (sessionName ah)] σ).
Proof.
  intros Hst Hget Hl Hnew Hid Ht Hle. unfold AuthenticateRequest. run.
  rewrite Hst. run. rewrite Hget. run. rewrite Hl, Hnew, Hid, Ht.
  unfold time.After. destruct (Z.ltb_spec t now); [lia | done].
Qed.

Lemma AuthenticateRequest_reject ah st now r σ l s :
  store ah = Some st →
  Get st r (sessionName ah) = inl l →
  heap σ !! l = Some s →
  ¬ unexpired now s →
  AuthenticateRequest ah now r σ
  = Some ((VNil, Some ErrNotAuthorized), logged [EvGet (sessionName ah)] σ).
Proof.
  intros Hst Hget Hl Hno. unfold AuthenticateRequest. run.
  rewrite Hst. run. rewrite Hget. run. rewrite Hl.
  destruct (IsNew s) eqn:Hnew; [done |].
  destruct (Values s !! userKey) as [id |] eqn:Hid; [| done].
  destruct (Values s !! userTimeout) as [[| t | |] |] eqn:Ht; try done.
  unfold time.After. destruct (Z.ltb_spec t now); [done |].
  exfalso. apply Hno. repeat split; eauto.
Qed.

Lemma unexpired_dec now s : unexpired now s ∨ ¬ unexpired now s.
Proof.
  unfold unexpired.
  destruct (IsNew s); [right; by intros [? _] |].
  destruct (Values s !! userKey) as [id |];
    [| right; intros (_ & [? ?] & _); done].
  destruct (Values s !! userTimeout) as [[| t | |] |];
    try (right; intros (_ & _ & ? & ? & _); done).
  destruct (Z.le_gt_cases now t).
  - left. repeat split; eauto.
  - right. intros (_ & _ & t' & Heq & ?). simplify_eq. lia.
Qed.

(** ** AuthenticateRequest *)

(** C1, as the specification states it, fails at the expiry instant itself:
    a session whose expiry timestamp equals the current time is not
    authenticated in the strict sense, yet [AuthenticateRequest] returns
    its identity with a nil error. *)
Lemma AuthenticateRequest_at_expiry_instant :
  let ah := sample.handler sample.testAuthProvider 0 in
  let s := sample.session false {[ userKey := VInt 23; userTimeout := VTime 1000 ]} in
  store ah = Some sample.cookieStore ∧
  Get sample.cookieStore (sample.get []) (sessionName ah) = inl 1%positive ∧
  heap (sample.world s) !! 1%positive = Some s ∧
  fst <$> AuthenticateRequest ah 1000 (sample.get []) (sample.world s)
    = Some (VInt 23, None) ∧
  ¬ authenticated 1000 s.
Proof.
  cbv zeta. repeat split; try (vm_compute; reflexivity).
  intros (_ & _ & t & Ht & Hlt).
  vm_compute in Ht. injection Ht as <-. lia.
Qed.

(** C1, amended: [AuthenticateRequest] returns [(identity, nil)] exactly
    when the loaded session is not new, holds the identity key, holds a
    timestamp under the expiry key, and the current time is not after that
    timestamp; the identity is the stored value.  In every other case where
    the load succeeds it returns [(nil, ErrNotAuthorized)], and when the
    store's [Get] fails it returns that error as it is. *)
Theorem AuthenticateRequest_decides ah st now r σ :
  store ah = Some st →
  (∀ err, Get st r (sessionName ah) = inr err →
     fst <$> AuthenticateRequest ah now r σ = Some (VNil, Some err)) ∧
  (∀ l s, Get st r (sessionName ah) = inl l → heap σ !! l = Some s →
     (∀ id, fst <$> AuthenticateRequest ah now r σ = Some (id, None)
            ↔ unexpired now s ∧ Values s !! userKey = Some id) ∧
     (¬ unexpired now s →
        fst <$> AuthenticateRequest ah now r σ
        = Some (VNil, Some ErrNotAuthorized))).
Proof.
  intros Hst. split.
  - intros err Hget.
    by rewrite (AuthenticateRequest_Get_error _ _ _ _ _ _ Hst Hget).
  - intros l s Hget Hl. split.
    + intros id. split.
      * intros Hres. destruct (unexpired_dec now s) as [Hok | Hno].
        -- split; [done |].
           destruct Hok as (Hnew & [id' Hid] & t & Ht & Hle).
           rewrite (AuthenticateRequest_accept _ _ _ _ _ _ _ _ _
                      Hst Hget Hl Hnew Hid Ht Hle) in Hres.
           cbn in Hres. congruence.
        -- rewrite (AuthenticateRequest_reject _ _ _ _ _ _ _ Hst Hget Hl Hno)
             in Hres.
           discriminate.
      * intros [(Hnew & _ & t & Ht & Hle) Hid].
        by rewrite (AuthenticateRequest_accept _ _ _ _ _ _ _ _ _
                      Hst Hget Hl Hnew Hid Ht Hle).
    + intros Hno.
      by rewrite (AuthenticateRequest_reject _ _ _ _ _ _ _ Hst Hget Hl Hno).
Qed.

Lemma AuthenticateRequest_decides_witness :
  let ah := sample.handler sample.testAuthProvider 0 in
  let s := sample.session false {[ userKey := VInt 23; userTimeout := VTime 1000 ]} in
  store ah = Some sample.cookieStore ∧
  ∀ id, fst <$> AuthenticateRequest ah 1000 (sample.get []) (sample.world s)
        = Some (id, None)
        ↔ unexpired 1000 s ∧ Values s !! userKey = Some id.
Proof.
  cbv zeta. split; [reflexivity |].
  exact (proj1 (proj2 (AuthenticateRequest_decides
                         (sample.handler sample.testAuthProvider 0)
                         sample.cookieStore 1000 (sample.get [])
                         (sample.world (sample.session false
                            {[ userKey := VInt 23; userTimeout := VTime 1000 ]}))
                         eq_refl)
                 1%positive _ eq_refl eq_refl)).
Defined.

(** ** NewHandler *)

(** The loop over the options fails exactly when one option fails on the
    handler that the options before it have built. *)
Lemma applyOptions_inr options ah err :
  applyOptions options ah = inr err ↔
  ∃ (pre : list Option) o post cfg,
    options = (pre ++ o :: post)%list ∧
    applyOptions pre ah = inl cfg ∧
    snd (o cfg) = Some err.
Proof.
  revert ah. induction options as [| o rest IH]; intros ah; cbn.
  - split; [done |]. intros ([| ? ?] & ? & ? & ? & ? & _); done.
  - destruct (o ah) as [ah' [e |]] eqn:Ho.
    + split.
      * intros [= ->]. exists [], o, rest, ah. by rewrite Ho.
      * intros ([| o' pre] & o'' & post & cfg & Heq & Hpre & Herr);
          cbn in *; simplify_eq.
        -- rewrite Ho in Herr. cbn in Herr. congruence.
        -- by rewrite Ho in Hpre.
    + rewrite IH. split.
      * intros (pre & o' & post & cfg & -> & Hpre & Herr).
        exists (o :: pre), o', post, cfg. cbn. by rewrite Ho.
      * intros ([| o' pre] & o'' & post & cfg & Heq & Hpre & Herr);
          cbn in *; simplify_eq.
        -- rewrite Ho in Herr. done.
        -- rewrite Ho in Hpre. by exists pre, o'', post, cfg.
Qed.

Lemma http_Error_fresh msg code w :
  Code w = None →
  Code (http_Error msg code w) = Some code ∧
  Body (http_Error msg code w) = Body w +:+ (msg +:+ newline).
Proof.
  intros Hw. unfold http_Error, Write, WriteHeader, Header_Set. cbn.
  rewrite Hw. by cbn.
Qed.


(** C6: [NewHandler] fails with the error of the first option that fails,
    and with a configuration error when the options leave no store.
    Otherwise it returns the handler the options built, with the defaults
    filled in afterwards: five minutes for a zero lifetime, ["/"] for an
    empty landing path, the landing path for an empty logout path,
    ["AuthSession"] for an empty session name, an error handler that
    writes the status and the error text, and a not-authorized handler
    that calls the error handler with [ErrNotAuthorized] and 401. *)
Theorem NewHandler_defaults a options :
  (∀ (pre : list Option) o post cfg err,
     options = (pre ++ o :: post)%list →
     applyOptions pre (zeroHandler a) = inl cfg →
     snd (o cfg) = Some err →
     NewHandler a options = inr err) ∧
  (∀ cfg, applyOptions options (zeroHandler a) = inl cfg →
     store cfg = None → NewHandler a options = inr errNoStore) ∧
  (∀ cfg st, applyOptions options (zeroHandler a) = inl cfg →
     store cfg = Some st →
     ∃ ah eh h,
       NewHandler a options = inl ah ∧
       auther ah = auther cfg ∧
       store ah = Some st ∧
       lifetime ah
         = (if decide (lifetime cfg = 0) then 5 * time.Minute else lifetime cfg) ∧
       redirLanding ah
         = (if decide (redirLanding cfg = "") then "/" else redirLanding cfg) ∧
       redirLogout ah
         = (if decide (redirLogout cfg = "") then redirLanding ah
            else redirLogout cfg) ∧
       sessionName ah
         = (if decide (sessionName cfg = "") then "AuthSession"
            else sessionName cfg) ∧
       errorHandler ah = Some eh ∧
       (match errorHandler cfg with
        | Some eh' => eh = eh'
        | None =>
            ∀ r err code w, Code w = None →
              Code (eh r err code w) = Some code ∧
              Body (eh r err code w) = Body w +:+ (Error err +:+ newline)
        end) ∧
       notAuthorizedHandler ah = Some h ∧
       (match notAuthorizedHandler cfg with
        | Some h' => h = h'
        | None => ∀ r w, h r w = eh r ErrNotAuthorized StatusUnauthorized w
        end)).
Proof.
  unfold NewHandler. split; [| split].
  - intros pre o post cfg err Hopts Hpre Herr.
    assert (applyOptions options (zeroHandler a) = inr err) as ->; [| done].
    apply applyOptions_inr. by exists pre, o, post, cfg.
  - by intros cfg -> ->.
  - intros cfg st -> Hst. rewrite Hst. clear options.
    destruct cfg as [a' st' eh' h' land out life name]. cbn in Hst. subst st'.
    cbn [lifetime redirLanding redirLogout sessionName errorHandler
         notAuthorizedHandler auther store].
    destruct (decide (life = 0)); cbn;
      destruct (decide (land = "")); cbn;
      destruct (decide (out = "")); cbn;
      destruct (decide (name = "")); cbn;
      destruct eh' as [eh |]; cbn;
      destruct h' as [h |]; cbn;
      eexists _, _, _; (split; [reflexivity |]); cbn;
      repeat (split; [first [reflexivity | intros; by apply http_Error_fresh] |]);
      first [reflexivity | intros; by apply http_Error_fresh].
Qed.

Lemma NewHandler_defaults_witness :
  let a := sample.testAuthProvider in
  let options := [sample.SetStore sample.cookieStore] in
  applyOptions options (zeroHandler a)
    = inl (set_store sample.cookieStore (zeroHandler a)) ∧
  store (set_store sample.cookieStore (zeroHandler a)) = Some sample.cookieStore ∧
  ∃ ah eh h,
    NewHandler a options = inl ah ∧
    lifetime ah = 300000000000 ∧
    redirLanding ah = "/" ∧ redirLogout ah = "/" ∧
    sessionName ah = "AuthSession" ∧
    errorHandler ah = Some eh ∧ notAuthorizedHandler ah = Some h ∧
    Code (h (sample.get []) newResponse) = Some 401 ∧
    Body (h (sample.get []) newResponse) = "Not Authorized" +:+ newline.
Proof.
  cbv zeta. split; [reflexivity | split; [reflexivity |]].
  destruct (proj2 (proj2 (NewHandler_defaults sample.testAuthProvider
                            [sample.SetStore sample.cookieStore]))
              _ sample.cookieStore eq_refl eq_refl)
    as (ah & eh & h & Hnew & _ & _ & Hlife & Hland & Hout & Hname
        & Heh & Hdef & Hh & Hna).
  exists ah, eh, h. cbn in Hdef, Hna.
  repeat (split; [first [assumption | by rewrite ?Hout, ?Hland] |]).
  rewrite Hna.
  destruct (Hdef (sample.get []) ErrNotAuthorized StatusUnauthorized
              newResponse eq_refl) as [-> ->].
  done.
Defined.

(** ** SaveUserSession and Authorize *)

Lemma SaveUserSession_Get_error ah st now r id σ err :
  store ah = Some st →
  Get st r (sessionName ah) = inr err →
  SaveUserSession ah now r id σ
  = Some (Some err, logged [EvGet (sessionName ah)] σ).
Proof.
  intros Hst Hget. run. rewrite Hst. run. by rewrite Hget.
Qed.

Lemma SaveUserSession_run ah st now r id σ l s w err :
  store ah = Some st →
  Get st r (sessionName ah) = inl l →
  heap σ !! l = Some s →
  Save st r (loggedIn (time.Add now (lifetime ah)) id s) (resp σ) = (w, err) →
  SaveUserSession ah now r id σ
  = Some (err, saved (sessionName ah) l
                 (loggedIn (time.Add now (lifetime ah)) id s) w σ).
Proof.
  intros Hst Hget Hl Hsave. run. rewrite Hst. run. rewrite Hget. run.
  rewrite Hl. run. rewrite lookup_insert_eq. run.
  rewrite !lookup_insert_eq. run. cbn [IsNew Values Options].
  fold (loggedIn (time.Add now (lifetime ah)) id s). rewrite Hsave.
  unfold saved. cbn [heap resp trace]. rewrite !insert_insert_eq.
  rewrite <- app_assoc. by destruct err.
Qed.

Lemma Authorize_checked ah now r σ form :
  Method r = "POST" →
  ParseForm r = inl form →
  url_Get form "user" ≠ "" →
  url_Get form "pass" ≠ "" →
  Authorize ah now r σ
  = match Check (auther ah) (url_Get form "user") (url_Get form "pass") with
    | (_, Some err) =>
        call_errorHandler ah r err
          (if decide (err = ErrBadLogin) then StatusBadRequest
           else StatusInternalServerError)
          (logged [EvCheck (url_Get form "user") (url_Get form "pass")] σ)
    | (id, None) =>
        match SaveUserSession ah now r id
                (logged [EvCheck (url_Get form "user") (url_Get form "pass")] σ)
        with
        | Some (Some err, σ') =>
            call_errorHandler ah r err StatusInternalServerError σ'
        | Some (None, σ') => redirect (redirLanding ah) StatusSeeOther σ'
        | None => None
        end
    end.
Proof.
  intros Hm Hform Hu Hp. unfold Authorize.
  rewrite decide_False by (by intros ?). rewrite Hform.
  rewrite decide_False by (by intros [? | ?]).
  unfold auther_Check at 1, emit, mbind, M_bind, mret, M_ret, logged.
  cbn beta iota.
  destruct (Check (auther ah) _ _) as [id [err |]]; [done |].
  destruct (SaveUserSession _ _ _ _ _) as [[[err |] σ'] |]; done.
Qed.

Lemma call_errorHandler_run ah eh r err code σ :
  errorHandler ah = Some eh →
  call_errorHandler ah r err code σ = Some (tt, handled eh r err code σ).
Proof. intros Heh. run. by rewrite Heh. Qed.

Lemma Authorize_bad_method ah eh now r σ :
  errorHandler ah = Some eh →
  Method r ≠ "POST" →
  Authorize ah now r σ
  = Some (tt, handled eh r errMethodShouldBePOST StatusBadRequest σ).
Proof.
  intros Heh Hm. unfold Authorize. rewrite decide_True by done.
  by apply call_errorHandler_run.
Qed.

Lemma Authorize_bad_form ah eh now r σ err :
  errorHandler ah = Some eh →
  Method r = "POST" →
  ParseForm r = inr err →
  Authorize ah now r σ
  = Some (tt, handled eh r err StatusInternalServerError σ).
Proof.
  intros Heh Hm Hform. unfold Authorize.
  rewrite decide_False by (by intros ?). rewrite Hform.
  by apply call_errorHandler_run.
Qed.

Lemma Authorize_empty ah eh now r σ form :
  errorHandler ah = Some eh →
  Method r = "POST" →
  ParseForm r = inl form →
  url_Get form "user" = "" ∨ url_Get form "pass" = "" →
  Authorize ah now r σ = Some (tt, handled eh r ErrBadLogin StatusBadRequest σ).
Proof.
  intros Heh Hm Hform Hempty. unfold Authorize.
  rewrite decide_False by (by intros ?). rewrite Hform.
  rewrite decide_True by done. by apply call_errorHandler_run.
Qed.

Lemma Authorize_check_failed ah eh now r σ form id err :
  errorHandler ah = Some eh →
  Method r = "POST" →
  ParseForm r = inl form →
  url_Get form "user" ≠ "" →
  url_Get form "pass" ≠ "" →
  Check (auther ah) (url_Get form "user") (url_Get form "pass") = (id, Some err) →
  Authorize ah now r σ
  = Some (tt, handled eh r err
                (if decide (err = ErrBadLogin) then StatusBadRequest
                 else StatusInternalServerError)
                (logged [EvCheck (url_Get form "user") (url_Get form "pass")] σ)).
Proof.
  intros Heh Hm Hform Hu Hp Hcheck.
  rewrite (Authorize_checked _ _ _ _ _ Hm Hform Hu Hp), Hcheck.
  by apply call_errorHandler_run.
Qed.

Ltac events :=
  unfold new_events, handled, logged, saved, redirected; cbn [trace];
  rewrite <- ?app_assoc, drop_app_length; cbn [app].

Ltac absent :=
  let Hin := fresh "Hin" in
  intros Hin;
  repeat (apply elem_of_cons in Hin as [Hin | Hin]; [discriminate |]);
  by apply elem_of_nil in Hin.

(** C4: [Authorize] validates in order, and every failure ends in one call
    of the error handler and nothing else: 400 for a method other than
    POST, 500 for a form that does not parse, [ErrBadLogin] and 400 for an
    empty user or password, in all three cases without a call of the
    verifier; after the verifier was called, 400 for [ErrBadLogin] and 500
    for every other error. *)
Theorem Authorize_failures ah eh now r σ :
  errorHandler ah = Some eh →
  (Method r ≠ "POST" →
     Authorize ah now r σ
     = Some (tt, handled eh r errMethodShouldBePOST 400 σ)) ∧
  (∀ err, Method r = "POST" → ParseForm r = inr err →
     Authorize ah now r σ = Some (tt, handled eh r err 500 σ)) ∧
  (∀ form, Method r = "POST" → ParseForm r = inl form →
     url_Get form "user" = "" ∨ url_Get form "pass" = "" →
     Authorize ah now r σ = Some (tt, handled eh r ErrBadLogin 400 σ)) ∧
  (∀ form id err, Method r = "POST" → ParseForm r = inl form →
     url_Get form "user" ≠ "" → url_Get form "pass" ≠ "" →
     Check (auther ah) (url_Get form "user") (url_Get form "pass")
       = (id, Some err) →
     let σ' := logged [EvCheck (url_Get form "user") (url_Get form "pass")] σ in
     (err = ErrBadLogin →
        Authorize ah now r σ = Some (tt, handled eh r err 400 σ')) ∧
     (err ≠ ErrBadLogin →
        Authorize ah now r σ = Some (tt, handled eh r err 500 σ'))) ∧
  (∀ err code user pass,
     new_events σ (handled eh r err code σ) = [EvErrorHandler err code] ∧
     new_events σ (handled eh r err code (logged [EvCheck user pass] σ))
     = [EvCheck user pass; EvErrorHandler err code]).
Proof.
  intros Heh. split; [| split; [| split; [| split]]].
  - intros Hm. by apply Authorize_bad_method.
  - intros err Hm Hform. by apply Authorize_bad_form.
  - intros form Hm Hform Hempty. by apply Authorize_empty with form.
  - intros form id err Hm Hform Hu Hp Hcheck σ'.
    pose proof (Authorize_check_failed _ _ now _ σ _ _ _ Heh Hm Hform Hu Hp Hcheck)
      as Hrun.
    split; intros Herr; rewrite Hrun.
    + by rewrite decide_True.
    + by rewrite decide_False.
  - intros err code user pass. split; by events.
Qed.

Lemma Authorize_failures_witness :
  let ah := sample.handler sample.testAuthProvider 0 in
  errorHandler ah = Some defaultErrorHandler ∧
  (fst <$> Authorize ah 1000 (sample.get []) (sample.world (sample.session true ∅))
     = Some tt) ∧
  (trace <$> (snd <$> Authorize ah 1000 (sample.login "false" "false")
                        (sample.world (sample.session true ∅)))
     = Some [EvCheck "false" "false"; EvErrorHandler ErrBadLogin 400]).
Proof.
  cbv zeta. split; [reflexivity |].
  pose proof (Authorize_failures (sample.handler sample.testAuthProvider 0)
                defaultErrorHandler 1000) as H.
  split.
  - destruct (H (sample.get []) (sample.world (sample.session true ∅)) eq_refl)
      as [Hm _].
    rewrite Hm; [reflexivity | discriminate].
  - destruct (H (sample.login "false" "false")
                (sample.world (sample.session true ∅)) eq_refl)
      as (_ & _ & _ & Hc & _).
    destruct (Hc {[ "user" := ["false"]; "pass" := ["false"] ]} VNil ErrBadLogin
                eq_refl eq_refl) as [Hbad _];
      [vm_compute; discriminate | vm_compute; discriminate | reflexivity |].
    rewrite Hbad; reflexivity.
Defined.

Lemma Authorize_Get_failed ah st eh now r σ form id err :
  store ah = Some st →
  errorHandler ah = Some eh →
  Method r = "POST" →
  ParseForm r = inl form →
  url_Get form "user" ≠ "" →
  url_Get form "pass" ≠ "" →
  Check (auther ah) (url_Get form "user") (url_Get form "pass") = (id, None) →
  Get st r (sessionName ah) = inr err →
  Authorize ah now r σ
  = Some (tt, handled eh r err StatusInternalServerError
                (logged [EvGet (sessionName ah)]
                   (logged [EvCheck (url_Get form "user") (url_Get form "pass")] σ))).
Proof.
  intros Hst Heh Hm Hform Hu Hp Hcheck Hget.
  rewrite (Authorize_checked _ _ _ _ _ Hm Hform Hu Hp), Hcheck.
  rewrite (SaveUserSession_Get_error _ _ _ _ _ _ _ Hst Hget).
  by apply call_errorHandler_run.
Qed.

Lemma Authorize_Save_failed ah st eh now r σ form id l s w err :
  store ah = Some st →
  errorHandler ah = Some eh →
  Method r = "POST" →
  ParseForm r = inl form →
  url_Get form "user" ≠ "" →
  url_Get form "pass" ≠ "" →
  Check (auther ah) (url_Get form "user") (url_Get form "pass") = (id, None) →
  Get st r (sessionName ah) = inl l →
  heap σ !! l = Some s →
  Save st r (loggedIn (time.Add now (lifetime ah)) id s) (resp σ) = (w, Some err) →
  Authorize ah now r σ
  = Some (tt, handled eh r err StatusInternalServerError
                (saved (sessionName ah) l
                   (loggedIn (time.Add now (lifetime ah)) id s) w
                   (logged [EvCheck (url_Get form "user") (url_Get form "pass")] σ))).
Proof.
  intros Hst Heh Hm Hform Hu Hp Hcheck Hget Hl Hsave.
  rewrite (Authorize_checked _ _ _ _ _ Hm Hform Hu Hp), Hcheck.
  rewrite (SaveUserSession_run ah st now r id _ l s w (Some err)) by done.
  by apply call_errorHandler_run.
Qed.

Lemma Authorize_saved ah st now r σ form id l s w :
  store ah = Some st →
  Method r = "POST" →
  ParseForm r = inl form →
  url_Get form "user" ≠ "" →
  url_Get form "pass" ≠ "" →
  Check (auther ah) (url_Get form "user") (url_Get form "pass") = (id, None) →
  Get st r (sessionName ah) = inl l →
  heap σ !! l = Some s →
  Save st r (loggedIn (time.Add now (lifetime ah)) id s) (resp σ) = (w, None) →
  Authorize ah now r σ
  = Some (tt, redirected (redirLanding ah) StatusSeeOther
                (saved (sessionName ah) l
                   (loggedIn (time.Add now (lifetime ah)) id s) w
                   (logged [EvCheck (url_Get form "user") (url_Get form "pass")] σ))).
Proof.
  intros Hst Hm Hform Hu Hp Hcheck Hget Hl Hsave.
  rewrite (Authorize_checked _ _ _ _ _ Hm Hform Hu Hp), Hcheck.
  by rewrite (SaveUserSession_run ah st now r id _ l s w None).
Qed.

(** C5: after a successful check, [Authorize] writes the identity and the
    expiry [now + lifetime] into the session of the request and saves it.
    A failure of [Get] or of [Save] goes to the error handler with 500; on
    success the response is redirected to the landing path with 303.  The
    store is asked to save on this path only.  [SaveUserSession] makes the
    same writes and the same save, and returns the error. *)
Theorem Authorize_saves ah st eh now r σ :
  store ah = Some st →
  errorHandler ah = Some eh →
  let name := sessionName ah in
  (∀ form id, Method r = "POST" → ParseForm r = inl form →
     url_Get form "user" ≠ "" → url_Get form "pass" ≠ "" →
     Check (auther ah) (url_Get form "user") (url_Get form "pass") = (id, None) →
     let σ' := logged [EvCheck (url_Get form "user") (url_Get form "pass")] σ in
     (∀ err, Get st r name = inr err →
        Authorize ah now r σ
        = Some (tt, handled eh r err 500 (logged [EvGet name] σ'))) ∧
     (∀ l s, Get st r name = inl l → heap σ !! l = Some s →
        let s' := loggedIn (now + lifetime ah) id s in
        Values s' !! userKey = Some id ∧
        Values s' !! userTimeout = Some (VTime (now + lifetime ah)) ∧
        (∀ w err, Save st r s' (resp σ) = (w, Some err) →
           Authorize ah now r σ
           = Some (tt, handled eh r err 500 (saved name l s' w σ'))) ∧
        (∀ w, Save st r s' (resp σ) = (w, None) →
           Authorize ah now r σ
           = Some (tt, redirected (redirLanding ah) 303 (saved name l s' w σ')) ∧
           (Code w = None →
              Code (http_Redirect (redirLanding ah) 303 w) = Some 303 ∧
              Header (http_Redirect (redirLanding ah) 303 w) !! "Location"
              = Some [redirLanding ah])))) ∧
  (∀ σ1 s', Authorize ah now r σ = Some (tt, σ1) →
     EvSave s' ∈ new_events σ σ1 →
     Method r = "POST" ∧
     ∃ form id l,
       ParseForm r = inl form ∧
       url_Get form "user" ≠ "" ∧ url_Get form "pass" ≠ "" ∧
       Check (auther ah) (url_Get form "user") (url_Get form "pass") = (id, None) ∧
       Get st r name = inl l) ∧
  (∀ id err, Get st r name = inr err →
     SaveUserSession ah now r id σ = Some (Some err, logged [EvGet name] σ)) ∧
  (∀ id l s w err, Get st r name = inl l → heap σ !! l = Some s →
     Save st r (loggedIn (now + lifetime ah) id s) (resp σ) = (w, err) →
     SaveUserSession ah now r id σ
     = Some (err, saved name l (loggedIn (now + lifetime ah) id s) w σ)).
Proof.
  intros Hst Heh name. split; [| split; [| split]].
  - intros form id Hm Hform Hu Hp Hcheck σ'. split.
    + intros err Hget. by apply Authorize_Get_failed with st id.
    + intros l s Hget Hl s'. split; [| split; [| split]].
      * cbn. rewrite lookup_insert_ne by done. by rewrite lookup_insert_eq.
      * cbn. by rewrite lookup_insert_eq.
      * intros w err Hsave. by apply Authorize_Save_failed with st.
      * intros w Hsave. split; [by apply Authorize_saved with st |].
        intros Hw. unfold http_Redirect, WriteHeader, Header_Set. cbn.
        rewrite Hw. cbn. by rewrite lookup_insert_eq.
  - intros σ1 s' Hrun.
    destruct (decide (Method r = "POST")) as [Hm | Hm].
    2: { rewrite (Authorize_bad_method _ _ _ _ _ Heh Hm) in Hrun.
         injection Hrun as <-. events. absent. }
    destruct (ParseForm r) as [form | err] eqn:Hform.
    2: { rewrite (Authorize_bad_form _ _ _ _ _ _ Heh Hm Hform) in Hrun.
         injection Hrun as <-. events. absent. }
    destruct (decide (url_Get form "user" = "")) as [Hu | Hu].
    { rewrite (Authorize_empty _ _ _ _ _ _ Heh Hm Hform (or_introl Hu)) in Hrun.
      injection Hrun as <-. events. absent. }
    destruct (decide (url_Get form "pass" = "")) as [Hp | Hp].
    { rewrite (Authorize_empty _ _ _ _ _ _ Heh Hm Hform (or_intror Hp)) in Hrun.
      injection Hrun as <-. events. absent. }
    destruct (Check (auther ah) (url_Get form "user") (url_Get form "pass"))
      as [id [err |]] eqn:Hcheck.
    { rewrite (Authorize_check_failed _ _ _ _ _ _ _ _ Heh Hm Hform Hu Hp Hcheck)
        in Hrun.
      injection Hrun as <-. events. absent. }
    destruct (Get st r name) as [l | err] eqn:Hget.
    2: { rewrite (Authorize_Get_failed _ _ _ _ _ _ _ _ _ Hst Heh Hm Hform Hu Hp
                    Hcheck Hget) in Hrun.
         injection Hrun as <-. events. absent. }
    intros _. split; [done |]. by exists form, id, l.
  - intros id err Hget. by apply SaveUserSession_Get_error with st.
  - intros id l s w err Hget Hl Hsave. by apply SaveUserSession_run with st.
Qed.

Lemma Authorize_saves_witness :
  let ah := sample.handler sample.testAuthProvider 0 in
  let σ := sample.world (sample.session true ∅) in
  store ah = Some sample.cookieStore ∧
  errorHandler ah = Some defaultErrorHandler ∧
  ∃ σ1,
    Authorize ah 1000 (sample.login "testUser" "testPassw") σ = Some (tt, σ1) ∧
    Values <$> heap σ1 !! 1%positive
      = Some {[ userKey := VInt 23; userTimeout := VTime 300000001000 ]} ∧
    Code (resp σ1) = Some 303 ∧
    Header (resp σ1) !! "Location" = Some ["/"] ∧
    is_Some (Header (resp σ1) !! "Set-Cookie").
Proof.
  cbv zeta. split; [reflexivity | split; [reflexivity |]].
  destruct (Authorize_saves (sample.handler sample.testAuthProvider 0)
              sample.cookieStore defaultErrorHandler 1000
              (sample.login "testUser" "testPassw")
              (sample.world (sample.session true ∅)) eq_refl eq_refl)
    as [Hok _].
  destruct (Hok {[ "user" := ["testUser"]; "pass" := ["testPassw"] ]} (VInt 23)
              eq_refl eq_refl) as [_ Hsave];
    [vm_compute; discriminate | vm_compute; discriminate | reflexivity |].
  destruct (Hsave 1%positive (sample.session true ∅) eq_refl eq_refl)
    as (_ & _ & _ & Hdone).
  destruct (Hdone (Header_Set "Set-Cookie" "AuthSession=MTU" newResponse) eq_refl)
    as [Hrun _].
  eexists. split; [exact Hrun |].
  repeat split; try (vm_compute; reflexivity).
  by eexists.
Defined.

(** ** Login, then authentication *)

Lemma presents_accept ah st now r σ l s s0 id t :
  store ah = Some st →
  Get st r (sessionName ah) = inl l →
  heap σ !! l = Some s →
  presents s (loggedIn t id s0) →
  now ≤ t →
  AuthenticateRequest ah now r σ
  = Some ((id, None), logged [EvGet (sessionName ah)] σ).
Proof.
  intros Hst Hget Hl [Hnew Hvals] Hle.
  apply AuthenticateRequest_accept with st l s t; try done.
  - rewrite Hvals. cbn. rewrite lookup_insert_ne by done.
    by rewrite lookup_insert_eq.
  - rewrite Hvals. cbn. by rewrite lookup_insert_eq.
Qed.

(** C2: whenever the verifier accepts with an identity, and the store
    hands out and saves the session, [Authorize] leaves a session state
    from which [AuthenticateRequest] returns that identity with a nil
    error, on every later request that presents this state at a time
    strictly before the login time plus the lifetime. *)
Theorem Authorize_then_AuthenticateRequest ah st now r σ form id l s w :
  store ah = Some st →
  Method r = "POST" →
  ParseForm r = inl form →
  url_Get form "user" ≠ "" →
  url_Get form "pass" ≠ "" →
  Check (auther ah) (url_Get form "user") (url_Get form "pass") = (id, None) →
  Get st r (sessionName ah) = inl l →
  heap σ !! l = Some s →
  Save st r (loggedIn (now + lifetime ah) id s) (resp σ) = (w, None) →
  ∃ σ1 s1,
    Authorize ah now r σ = Some (tt, σ1) ∧
    heap σ1 !! l = Some s1 ∧
    EvSave s1 ∈ new_events σ σ1 ∧
    ∀ now' r' σ' l' s',
      Get st r' (sessionName ah) = inl l' →
      heap σ' !! l' = Some s' →
      presents s' s1 →
      now' < now + lifetime ah →
      fst <$> AuthenticateRequest ah now' r' σ' = Some (id, None).
Proof.
  intros Hst Hm Hform Hu Hp Hcheck Hget Hl Hsave.
  eexists _, (loggedIn (now + lifetime ah) id s). split; [| split; [| split]].
  - by apply Authorize_saved with st.
  - cbn. by rewrite lookup_insert_eq.
  - events. rewrite !elem_of_cons. auto.
  - intros now' r' σ' l' s' Hget' Hl' Hpres Hlt.
    rewrite (presents_accept ah st now' r' σ' l' s' s id (now + lifetime ah));
      [done .. | lia].
Qed.

Lemma Authorize_then_AuthenticateRequest_witness :
  let ah := sample.handler sample.testAuthProvider (5 * time.Minute) in
  let s' := sample.session false
              {[ userKey := VInt 23; userTimeout := VTime 300000001000 ]} in
  fst <$> AuthenticateRequest ah 300000000999 (sample.get ["AuthSession=MTU"])
            (sample.world s')
  = Some (VInt 23, None).
Proof.
  cbv zeta.
  assert (url_Get {[ "user" := ["testUser"]; "pass" := ["testPassw"] ]} "user" ≠ "")
    as Hu by (vm_compute; discriminate).
  assert (url_Get {[ "user" := ["testUser"]; "pass" := ["testPassw"] ]} "pass" ≠ "")
    as Hp by (vm_compute; discriminate).
  destruct (Authorize_then_AuthenticateRequest
              (sample.handler sample.testAuthProvider (5 * time.Minute))
              sample.cookieStore 1000 (sample.login "testUser" "testPassw")
              (sample.world (sample.session true ∅))
              {[ "user" := ["testUser"]; "pass" := ["testPassw"] ]}
              (VInt 23) 1%positive (sample.session true ∅)
              (Header_Set "Set-Cookie" "AuthSession=MTU" newResponse)
              eq_refl eq_refl eq_refl Hu Hp eq_refl eq_refl eq_refl eq_refl)
    as (σ1 & s1 & Hrun & Hs1 & _ & Hlater).
  vm_compute in Hrun. injection Hrun as <-.
  vm_compute in Hs1. injection Hs1 as <-.
  apply (Hlater 300000000999 (sample.get ["AuthSession=MTU"])
           (sample.world (sample.session false
              {[ userKey := VInt 23; userTimeout := VTime 300000001000 ]}))
           1%positive
           (sample.session false
              {[ userKey := VInt 23; userTimeout := VTime 300000001000 ]})
           eq_refl eq_refl).
  - split; vm_compute; reflexivity.
  - vm_compute. reflexivity.
Defined.

(** C10: a nil identity counts as an identity.  When the verifier returns
    [(nil, nil)], [Authorize] takes the success path and stores nil under
    the identity key; a later [AuthenticateRequest] on that session state
    finds the key and returns [(nil, nil)]. *)
Theorem nil_identity_authenticates ah st now r σ form l s w :
  store ah = Some st →
  Method r = "POST" →
  ParseForm r = inl form →
  url_Get form "user" ≠ "" →
  url_Get form "pass" ≠ "" →
  Check (auther ah) (url_Get form "user") (url_Get form "pass") = (VNil, None) →
  Get st r (sessionName ah) = inl l →
  heap σ !! l = Some s →
  Save st r (loggedIn (now + lifetime ah) VNil s) (resp σ) = (w, None) →
  ∃ σ1 s1,
    Authorize ah now r σ = Some (tt, σ1) ∧
    new_events σ σ1
    = [EvCheck (url_Get form "user") (url_Get form "pass");
       EvGet (sessionName ah); EvSave s1;
       EvRedirect (redirLanding ah) StatusSeeOther] ∧
    heap σ1 !! l = Some s1 ∧
    Values s1 !! userKey = Some VNil ∧
    ∀ now' r' σ' l' s',
      Get st r' (sessionName ah) = inl l' →
      heap σ' !! l' = Some s' →
      presents s' s1 →
      now' ≤ now + lifetime ah →
      fst <$> AuthenticateRequest ah now' r' σ' = Some (VNil, None).
Proof.
  intros Hst Hm Hform Hu Hp Hcheck Hget Hl Hsave.
  eexists _, (loggedIn (now + lifetime ah) VNil s).
  split; [by apply Authorize_saved with st |].
  split; [by events |].
  split; [cbn; by rewrite lookup_insert_eq |].
  split.
  - cbn. rewrite lookup_insert_ne by done. by rewrite lookup_insert_eq.
  - intros now' r' σ' l' s' Hget' Hl' Hpres Hle.
    by rewrite (presents_accept ah st now' r' σ' l' s' s VNil (now + lifetime ah)).
Qed.

Lemma nil_identity_authenticates_witness :
  let ah := sample.handler sample.nilAuthProvider (5 * time.Minute) in
  let s' := sample.session false
              {[ userKey := VNil; userTimeout := VTime 300000001000 ]} in
  fst <$> AuthenticateRequest ah 2000 (sample.get ["AuthSession=MTU"])
            (sample.world s')
  = Some (VNil, None).
Proof.
  cbv zeta.
  assert (url_Get {[ "user" := ["u"]; "pass" := ["p"] ]} "user" ≠ "")
    as Hu by (vm_compute; discriminate).
  assert (url_Get {[ "user" := ["u"]; "pass" := ["p"] ]} "pass" ≠ "")
    as Hp by (vm_compute; discriminate).
  destruct (nil_identity_authenticates
              (sample.handler sample.nilAuthProvider (5 * time.Minute))
              sample.cookieStore 1000 (sample.login "u" "p")
              (sample.world (sample.session true ∅))
              {[ "user" := ["u"]; "pass" := ["p"] ]}
              1%positive (sample.session true ∅)
              (Header_Set "Set-Cookie" "AuthSession=MTU" newResponse)
              eq_refl eq_refl eq_refl Hu Hp eq_refl eq_refl eq_refl eq_refl)
    as (σ1 & s1 & Hrun & _ & Hs1 & _ & Hlater).
  vm_compute in Hrun. injection Hrun as <-.
  vm_compute in Hs1. injection Hs1 as <-.
  apply (Hlater 2000 (sample.get ["AuthSession=MTU"])
           (sample.world (sample.session false
              {[ userKey := VNil; userTimeout := VTime 300000001000 ]}))
           1%positive
           (sample.session false
              {[ userKey := VNil; userTimeout := VTime 300000001000 ]})
           eq_refl eq_refl).
  - split; vm_compute; reflexivity.
  - vm_compute. discriminate.
Defined.

(** ** Logout *)

Lemma neg_exact d :
  time.MinInt64 < d ≤ time.MaxInt64 → time.neg d = - d.
Proof.
  unfold time.MinInt64, time.MaxInt64, time.neg, time.wrap64.
  change (2 ^ 63) with 9223372036854775808.
  change (2 ^ 64) with 18446744073709551616.
  intros Hd. rewrite Z.mod_small by lia. lia.
Qed.

Lemma Logout_Get_failed ah st eh now r σ err :
  store ah = Some st →
  errorHandler ah = Some eh →
  Get st r (sessionName ah) = inr err →
  Logout ah now r σ
  = Some (tt, handled eh r err StatusInternalServerError
                (logged [EvGet (sessionName ah)] σ)).
Proof.
  intros Hst Heh Hget. unfold Logout. run. rewrite Hst. run. rewrite Hget.
  run. by rewrite Heh.
Qed.

Lemma Logout_run ah st now r σ l s w err :
  store ah = Some st →
  Get st r (sessionName ah) = inl l →
  heap σ !! l = Some s →
  Save st r (loggedOut (time.Add now (time.neg (lifetime ah))) s) (resp σ)
    = (w, err) →
  Logout ah now r σ
  = match err with
    | Some err =>
        call_errorHandler ah r err StatusInternalServerError
          (saved (sessionName ah) l
             (loggedOut (time.Add now (time.neg (lifetime ah))) s) w σ)
    | None =>
        Some (tt, redirected (redirLogout ah) StatusSeeOther
                    (saved (sessionName ah) l
                       (loggedOut (time.Add now (time.neg (lifetime ah))) s) w σ))
    end.
Proof.
  intros Hst Hget Hl Hsave. unfold Logout. run. rewrite Hst. run.
  rewrite Hget. run. rewrite Hl. run. rewrite lookup_insert_eq. run.
  rewrite !lookup_insert_eq. run.
  cbn [IsNew Values Options Path Domain MaxAge Secure HttpOnly].
  fold (loggedOut (time.Add now (time.neg (lifetime ah))) s). rewrite Hsave.
  unfold saved, redirected. cbn [heap resp trace]. rewrite !insert_insert_eq.
  destruct err; run; by rewrite <- ?app_assoc.
Qed.

Lemma AuthenticateRequest_expired ah st now r σ l s t :
  store ah = Some st →
  Get st r (sessionName ah) = inl l →
  heap σ !! l = Some s →
  Values s !! userTimeout = Some (VTime t) →
  t < now →
  AuthenticateRequest ah now r σ
  = Some ((VNil, Some ErrNotAuthorized), logged [EvGet (sessionName ah)] σ).
Proof.
  intros Hst Hget Hl Ht Hlt.
  apply AuthenticateRequest_reject with st l s; try done.
  intros (_ & _ & t' & Ht' & Hle). simplify_eq. lia.
Qed.

(** C3: with a positive lifetime, [Logout] writes the expiry
    [now - lifetime] into the session, sets [MaxAge] to -1 and saves; a
    failure of [Get] or [Save] goes to the error handler with 500, and on
    success the response is redirected to the logout path with 303.  Every
    [AuthenticateRequest] on the session state that [Logout] leaves, at the
    logout time or later, returns [ErrNotAuthorized]. *)
Theorem Logout_invalidates ah st eh now r σ :
  store ah = Some st →
  errorHandler ah = Some eh →
  0 < lifetime ah ≤ time.MaxInt64 →
  let name := sessionName ah in
  (∀ err, Get st r name = inr err →
     Logout ah now r σ = Some (tt, handled eh r err 500 (logged [EvGet name] σ))) ∧
  (∀ l s, Get st r name = inl l → heap σ !! l = Some s →
     let s1 := loggedOut (now - lifetime ah) s in
     Values s1 !! userTimeout = Some (VTime (now - lifetime ah)) ∧
     MaxAge (Options s1) = -1 ∧
     (∀ w err, Save st r s1 (resp σ) = (w, Some err) →
        Logout ah now r σ = Some (tt, handled eh r err 500 (saved name l s1 w σ))) ∧
     (∀ w, Save st r s1 (resp σ) = (w, None) →
        Logout ah now r σ
        = Some (tt, redirected (redirLogout ah) 303 (saved name l s1 w σ))) ∧
     (∃ σ1, Logout ah now r σ = Some (tt, σ1) ∧ heap σ1 !! l = Some s1) ∧
     (∀ now' r' σ' l' s',
        now ≤ now' →
        Get st r' name = inl l' →
        heap σ' !! l' = Some s' →
        Values s' = Values s1 →
        fst <$> AuthenticateRequest ah now' r' σ'
        = Some (VNil, Some ErrNotAuthorized))).
Proof.
  intros Hst Heh Hlife name. split.
  - intros err Hget. by apply Logout_Get_failed with st.
  - intros l s Hget Hl s1.
    assert (time.Add now (time.neg (lifetime ah)) = now - lifetime ah) as Hneg.
    { unfold time.Add. rewrite neg_exact; [lia |].
      unfold time.MinInt64. change (2 ^ 63) with 9223372036854775808. lia. }
    assert (∀ w err, Save st r s1 (resp σ) = (w, err) →
              Logout ah now r σ
              = match err with
                | Some err =>
                    Some (tt, handled eh r err 500 (saved name l s1 w σ))
                | None =>
                    Some (tt, redirected (redirLogout ah) 303
                                (saved name l s1 w σ))
                end) as Hrun.
    { intros w err Hsave. unfold s1 in *. rewrite <- Hneg in *.
      rewrite (Logout_run ah st now r σ l s w err Hst Hget Hl Hsave).
      destruct err; [by apply call_errorHandler_run | done]. }
    split; [cbn; by rewrite lookup_insert_eq |].
    split; [done |].
    split; [intros w err Hsave; by rewrite (Hrun w (Some err)) |].
    split; [intros w Hsave; by rewrite (Hrun w None) |].
    split.
    + destruct (Save st r s1 (resp σ)) as [w err] eqn:Hsave.
      rewrite (Hrun w err eq_refl).
      destruct err; eexists; (split; [reflexivity |]);
        cbn; by rewrite lookup_insert_eq.
    + intros now' r' σ' l' s' Hle Hget' Hl' Hvals.
      rewrite (AuthenticateRequest_expired ah st now' r' σ' l' s'
                 (now - lifetime ah)); try done.
      * rewrite Hvals. cbn. by rewrite lookup_insert_eq.
      * lia.
Qed.

Lemma Logout_invalidates_witness :
  let ah := sample.handler sample.testAuthProvider (5 * time.Minute) in
  let s1 := sample.session true
              {[ userKey := VInt 23; userTimeout := VTime (-299999998000) ]} in
  0 < lifetime ah ≤ time.MaxInt64 ∧
  fst <$> AuthenticateRequest ah 2000 (sample.get ["AuthSession=MTU"])
            (sample.world s1)
  = Some (VNil, Some ErrNotAuthorized).
Proof.
  cbv zeta.
  assert (0 < lifetime (sample.handler sample.testAuthProvider (5 * time.Minute))
          ≤ time.MaxInt64) as Hlife by (vm_compute; split; congruence).
  split; [exact Hlife |].
  destruct (Logout_invalidates
              (sample.handler sample.testAuthProvider (5 * time.Minute))
              sample.cookieStore defaultErrorHandler 2000
              (sample.get ["AuthSession=MTU"])
              (sample.world (sample.session false
                 {[ userKey := VInt 23; userTimeout := VTime 300000001000 ]}))
              eq_refl eq_refl Hlife) as [_ Hout].
  destruct (Hout 1%positive _ eq_refl eq_refl) as (_ & _ & _ & _ & _ & Hlater).
  apply (Hlater 2000 (sample.get ["AuthSession=MTU"])
           (sample.world (sample.session true
              {[ userKey := VInt 23; userTimeout := VTime (-299999998000) ]}))
           1%positive
           (sample.session true
              {[ userKey := VInt 23; userTimeout := VTime (-299999998000) ]})).
  - lia.
  - reflexivity.
  - reflexivity.
  - vm_compute. reflexivity.
Defined.

(** C9: on its success path [Logout] overwrites the expiry key, with
    [now] plus the negated lifetime, and sets [MaxAge] to -1; the identity
    key, every other value, the freshness flag, the other cookie options
    and every other session object are as they were, in the session that
    is saved and in the one that is left. *)
Theorem Logout_frame ah st now r σ l s w :
  store ah = Some st →
  Get st r (sessionName ah) = inl l →
  heap σ !! l = Some s →
  Save st r (loggedOut (time.Add now (time.neg (lifetime ah))) s) (resp σ)
    = (w, None) →
  ∃ σ1 s1,
    Logout ah now r σ = Some (tt, σ1) ∧
    heap σ1 !! l = Some s1 ∧
    new_events σ σ1
    = [EvGet (sessionName ah); EvSave s1;
       EvRedirect (redirLogout ah) StatusSeeOther] ∧
    Values s1
    = <[userTimeout := VTime (time.Add now (time.neg (lifetime ah)))]> (Values s) ∧
    (time.MinInt64 < lifetime ah ≤ time.MaxInt64 →
       Values s1 !! userTimeout = Some (VTime (now - lifetime ah))) ∧
    Values s1 !! userKey = Values s !! userKey ∧
    (∀ k, k ≠ userTimeout → Values s1 !! k = Values s !! k) ∧
    IsNew s1 = IsNew s ∧
    MaxAge (Options s1) = -1 ∧
    Path (Options s1) = Path (Options s) ∧
    Domain (Options s1) = Domain (Options s) ∧
    Secure (Options s1) = Secure (Options s) ∧
    HttpOnly (Options s1) = HttpOnly (Options s) ∧
    (∀ l', l' ≠ l → heap σ1 !! l' = heap σ !! l').
Proof.
  intros Hst Hget Hl Hsave.
  eexists _, (loggedOut (time.Add now (time.neg (lifetime ah))) s).
  split; [by rewrite (Logout_run ah st now r σ l s w None) |].
  split; [cbn; by rewrite lookup_insert_eq |].
  split; [by events |].
  split; [done |].
  split.
  { intros Hlife. cbn. rewrite lookup_insert_eq, neg_exact by done.
    unfold time.Add. by rewrite Z.add_opp_r. }
  split; [cbn; by rewrite lookup_insert_ne |].
  split; [intros k Hk; cbn; by rewrite lookup_insert_ne |].
  repeat (split; [done |]).
  intros l' Hl'. cbn. by rewrite lookup_insert_ne.
Qed.

Lemma Logout_frame_witness :
  let ah := sample.handler sample.testAuthProvider (5 * time.Minute) in
  let s := sample.session false
             {[ userKey := VInt 23; stringKey "theme" := VString "dark";
                userTimeout := VTime 300000001000 ]} in
  ∃ σ1 s1,
    Logout ah 2000 (sample.get ["AuthSession=MTU"]) (sample.world s)
      = Some (tt, σ1) ∧
    heap σ1 !! 1%positive = Some s1 ∧
    Values s1 !! userKey = Some (VInt 23) ∧
    Values s1 !! stringKey "theme" = Some (VString "dark") ∧
    Values s1 !! userTimeout = Some (VTime (-299999998000)).
Proof.
  cbv zeta.
  destruct (Logout_frame
              (sample.handler sample.testAuthProvider (5 * time.Minute))
              sample.cookieStore 2000 (sample.get ["AuthSession=MTU"])
              (sample.world (sample.session false
                 {[ userKey := VInt 23; stringKey "theme" := VString "dark";
                    userTimeout := VTime 300000001000 ]}))
              1%positive _
              (Header_Set "Set-Cookie" "AuthSession=MTU" newResponse)
              eq_refl eq_refl eq_refl eq_refl)
    as (σ1 & s1 & Hrun & Hs1 & _ & Hvals & _ & Hid & Hother & _).
  exists σ1, s1. split; [exact Hrun |]. split; [exact Hs1 |].
  split; [rewrite Hid; vm_compute; reflexivity |].
  split; [rewrite Hother by discriminate; vm_compute; reflexivity |].
  rewrite Hvals. vm_compute. reflexivity.
Defined.

(** ** Authenticate *)

Lemma AuthenticateRequest_total ah st now r σ :
  store ah = Some st →
  (∀ l, Get st r (sessionName ah) = inl l → is_Some (heap σ !! l)) →
  ∃ res,
    AuthenticateRequest ah now r σ
    = Some (res, logged [EvGet (sessionName ah)] σ).
Proof.
  intros Hst Hheap.
  destruct (Get st r (sessionName ah)) as [l | err] eqn:Hget.
  - destruct (Hheap l eq_refl) as [s Hl].
    destruct (unexpired_dec now s) as [(Hnew & [id Hid] & t & Ht & Hle) | Hno].
    + eexists. by apply AuthenticateRequest_accept with st l s t.
    + eexists. by apply AuthenticateRequest_reject with st l s.
  - eexists. by apply AuthenticateRequest_Get_error with st.
Qed.

Lemma NewHandler_default_notAuthorized a options cfg ah h :
  NewHandler a options = inl ah →
  applyOptions options (zeroHandler a) = inl cfg →
  errorHandler cfg = None →
  notAuthorizedHandler cfg = None →
  notAuthorizedHandler ah = Some h →
  ∀ r w, Code w = None →
    Code (h r w) = Some StatusUnauthorized ∧
    Body (h r w) = Body w +:+ ("Not Authorized" +:+ newline).
Proof.
  unfold NewHandler. intros Hnew Hcfg Heh Hh Hah. rewrite Hcfg in Hnew.
  destruct cfg as [a' st' eh' h' land out life name]. cbn in Heh, Hh. subst.
  cbn [store] in Hnew. destruct st' as [st |]; [| done].
  cbn [lifetime redirLanding redirLogout sessionName errorHandler
       notAuthorizedHandler auther store] in Hnew.
  destruct (decide (life = 0)); cbn in Hnew;
    destruct (decide (land = "")); cbn in Hnew;
    destruct (decide (out = "")); cbn in Hnew;
    destruct (decide (name = "")); cbn in Hnew;
    injection Hnew as <-; cbn in Hah; injection Hah as <-;
    intros r w Hw; by apply (http_Error_fresh "Not Authorized").
Qed.

(** C7: the middleware calls the downstream handler exactly when
    [AuthenticateRequest] returns a nil error.  On any error it calls the
    not-authorized handler and not the downstream handler.  The default
    not-authorized handler, with the default error handler, answers 401
    with the text of [ErrNotAuthorized]. *)
Theorem Authenticate_gates ah st h next now r σ :
  store ah = Some st →
  notAuthorizedHandler ah = Some h →
  (∀ l, Get st r (sessionName ah) = inl l → is_Some (heap σ !! l)) →
  ∃ res σ1,
    AuthenticateRequest ah now r σ = Some (res, σ1) ∧
    (snd res = None →
       Authenticate ah next now r σ
       = Some (tt, {| heap := heap σ1; resp := next r (resp σ1);
                      trace := trace σ1 ++ [EvNext] |})) ∧
    (snd res ≠ None →
       Authenticate ah next now r σ
       = Some (tt, {| heap := heap σ1; resp := h r (resp σ1);
                      trace := trace σ1 ++ [EvNotAuthorized] |})) ∧
    (∃ σ2, Authenticate ah next now r σ = Some (tt, σ2) ∧
       (EvNext ∈ new_events σ σ2 ↔ snd res = None) ∧
       (EvNotAuthorized ∈ new_events σ σ2 ↔ snd res ≠ None)) ∧
    (∀ a options cfg,
       NewHandler a options = inl ah →
       applyOptions options (zeroHandler a) = inl cfg →
       errorHandler cfg = None →
       notAuthorizedHandler cfg = None →
       ∀ r' w, Code w = None →
         Code (h r' w) = Some 401 ∧
         Body (h r' w) = Body w +:+ (Error ErrNotAuthorized +:+ newline)).
Proof.
  intros Hst Hh Hheap.
  destruct (AuthenticateRequest_total ah st now r σ Hst Hheap) as [[id err] Hrun].
  exists (id, err), (logged [EvGet (sessionName ah)] σ).
  split; [done |].
  assert (Authenticate ah next now r σ
          = match err with
            | Some _ =>
                Some (tt, {| heap := heap σ; resp := h r (resp σ);
                             trace := (trace σ ++ [EvGet (sessionName ah)])
                                      ++ [EvNotAuthorized] |})
            | None =>
                Some (tt, {| heap := heap σ; resp := next r (resp σ);
                             trace := (trace σ ++ [EvGet (sessionName ah)])
                                      ++ [EvNext] |})
            end) as Hgate.
  { unfold Authenticate, mbind, M_bind. rewrite Hrun.
    destruct err; run; [by rewrite Hh | done]. }
  cbn [snd]. split; [| split; [| split]].
  - intros ->. by rewrite Hgate.
  - intros Herr. rewrite Hgate. by destruct err.
  - rewrite Hgate. destruct err as [err |]; eexists; (split; [reflexivity |]);
      events; split; split; try done; try absent.
    + intros _. rewrite !elem_of_cons. auto.
    + intros _. rewrite !elem_of_cons. auto.
  - intros a options cfg Hnew Hcfg Heh Hna r' w Hw.
    by apply (NewHandler_default_notAuthorized a options cfg ah h).
Qed.

Lemma Authenticate_gates_witness :
  let ah := sample.handler sample.testAuthProvider (5 * time.Minute) in
  let σ := sample.world (sample.session true ∅) in
  ∃ σ2,
    Authenticate ah (fun _ w => Write "profile" w) 1000 (sample.get []) σ
      = Some (tt, σ2) ∧
    new_events σ σ2 = [EvGet "AuthSession"; EvNotAuthorized] ∧
    Code (resp σ2) = Some 401 ∧
    Body (resp σ2) = "Not Authorized" +:+ newline.
Proof.
  cbv zeta.
  destruct (Authenticate_gates
              (sample.handler sample.testAuthProvider (5 * time.Minute))
              sample.cookieStore
              (defaultNotAuthorizedHandler
                 (set_errorHandler defaultErrorHandler
                    (sample.handler sample.testAuthProvider (5 * time.Minute))))
              (fun _ w => Write "profile" w) 1000 (sample.get [])
              (sample.world (sample.session true ∅)) eq_refl eq_refl)
    as (res & σ1 & Hrun & _ & Hrefuse & _).
  { intros l [= <-]. by eexists. }
  vm_compute in Hrun. injection Hrun as <- <-.
  eexists. split; [apply Hrefuse; discriminate |].
  repeat split; vm_compute; reflexivity.
Defined.

(** C8: [AuthenticateRequest] reads and does not write.  When it returns
    an identity, it leaves every session object and the response as they
    were and asks the store for nothing but the session; a second call at
    any time up to the stored expiry returns the same identity, and the
    stored expiry is still the one written at login. *)
Theorem AuthenticateRequest_idempotent ah st now now' r σ l s id t :
  store ah = Some st →
  Get st r (sessionName ah) = inl l →
  heap σ !! l = Some s →
  Values s !! userTimeout = Some (VTime t) →
  fst <$> AuthenticateRequest ah now r σ = Some (id, None) →
  now' ≤ t →
  ∃ σ1 σ2,
    AuthenticateRequest ah now r σ = Some ((id, None), σ1) ∧
    AuthenticateRequest ah now' r σ1 = Some ((id, None), σ2) ∧
    heap σ1 = heap σ ∧ heap σ2 = heap σ ∧
    resp σ1 = resp σ ∧ resp σ2 = resp σ ∧
    new_events σ σ2 = [EvGet (sessionName ah); EvGet (sessionName ah)] ∧
    (∃ s2, heap σ2 !! l = Some s2 ∧
           Values s2 !! userTimeout = Some (VTime t) ∧ s2 = s).
Proof.
  intros Hst Hget Hl Ht Hres Hle.
  destruct (unexpired_dec now s) as [(Hnew & [id' Hid] & t' & Ht' & Hle') | Hno].
  2: { rewrite (AuthenticateRequest_reject _ _ _ _ _ _ _ Hst Hget Hl Hno) in Hres.
       discriminate. }
  rewrite (AuthenticateRequest_accept _ _ _ _ _ _ _ _ _
             Hst Hget Hl Hnew Hid Ht' Hle') in Hres.
  injection Hres as ->.
  exists (logged [EvGet (sessionName ah)] σ),
         (logged [EvGet (sessionName ah)] (logged [EvGet (sessionName ah)] σ)).
  split; [by apply AuthenticateRequest_accept with st l s t' |].
  split; [by apply AuthenticateRequest_accept with st l s t |].
  repeat (split; [done |]).
  split; [by events |].
  by exists s.
Qed.

Lemma AuthenticateRequest_idempotent_witness :
  let ah := sample.handler sample.testAuthProvider (5 * time.Minute) in
  let s := sample.session false
             {[ userKey := VInt 23; userTimeout := VTime 300000001000 ]} in
  ∃ σ1 σ2,
    AuthenticateRequest ah 2000 (sample.get ["AuthSession=MTU"]) (sample.world s)
      = Some ((VInt 23, None), σ1) ∧
    AuthenticateRequest ah 300000001000 (sample.get ["AuthSession=MTU"]) σ1
      = Some ((VInt 23, None), σ2) ∧
    heap σ2 = heap (sample.world s).
Proof.
  cbv zeta.
  assert (Values (sample.session false
                    {[ userKey := VInt 23; userTimeout := VTime 300000001000 ]})
          !! userTimeout = Some (VTime 300000001000)) as Ht
    by (vm_compute; reflexivity).
  assert (fst <$> AuthenticateRequest
                    (sample.handler sample.testAuthProvider (5 * time.Minute))
                    2000 (sample.get ["AuthSession=MTU"])
                    (sample.world (sample.session false
                       {[ userKey := VInt 23; userTimeout := VTime 300000001000 ]}))
          = Some (VInt 23, None)) as Hfirst
    by (vm_compute; reflexivity).
  destruct (AuthenticateRequest_idempotent
              (sample.handler sample.testAuthProvider (5 * time.Minute))
              sample.cookieStore 2000 300000001000
              (sample.get ["AuthSession=MTU"])
              (sample.world (sample.session false
                 {[ userKey := VInt 23; userTimeout := VTime 300000001000 ]}))
              1%positive _ (VInt 23) 300000001000
              eq_refl eq_refl eq_refl Ht Hfirst)
    as (σ1 & σ2 & H1 & H2 & _ & Hheap & _); [lia |].
  by exists σ1, σ2.
Defined.

(** ** The tests of the package, replayed on the model *)

Example TestUnauthorized :
  let σ := sample.world (sample.session true ∅) in
  (resp ∘ snd) <$> Authenticate sample.testHandler (fun _ w => Write "profile" w)
                     1000 (sample.get []) σ
  = Some {| Code := Some 401;
            Header := {[ "Content-Type" := ["text/plain; charset=utf-8"];
                         "X-Content-Type-Options" := ["nosniff"] ]};
            Body := "Not Authorized" +:+ newline |}.
Proof. vm_compute. reflexivity. Qed.

Example TestLogin_emptyVals :
  let r := {| Method := "POST"; ParseForm := inl ∅; Cookie := [] |} in
  (Code ∘ resp ∘ snd) <$> Authorize sample.testHandler 1000 r
                            (sample.world (sample.session true ∅))
  = Some (Some 400).
Proof. vm_compute. reflexivity. Qed.

Example TestLogin_badLogin :
  let σ := sample.world (sample.session true ∅) in
  (fun σ1 => (Code (resp σ1), Body (resp σ1), trace σ1)) ∘ snd
    <$> Authorize sample.testHandler 1000 (sample.login "false" "false") σ
  = Some (Some 400, "Bad Login" +:+ newline,
          [EvCheck "false" "false"; EvErrorHandler ErrBadLogin 400]).
Proof. vm_compute. reflexivity. Qed.

Example TestLogin_workingLogin :
  let σ := sample.world (sample.session true ∅) in
  (fun σ1 => (Code (resp σ1), Header (resp σ1) !! "Location",
              Header (resp σ1) !! "Set-Cookie")) ∘ snd
    <$> Authorize sample.testHandler 1000 (sample.login "testUser" "testPassw") σ
  = Some (Some 303, Some ["/landingRedir"], Some ["AuthSession=MTU"]).
Proof. vm_compute. reflexivity. Qed.

Example TestLogin_workingLoginAndRestrictedAcc :
  let s := sample.session false
             {[ userKey := VInt 23; userTimeout := VTime 300000001000 ]} in
  (fun σ1 => (Code (resp σ1), Body (resp σ1))) ∘ snd
    <$> Authenticate sample.testHandler (fun _ w => Write "profile" w)
          2000 (sample.get ["AuthSession=MTU"]) (sample.world s)
  = Some (Some 200, "profile").
Proof. vm_compute. reflexivity. Qed.

Example TestLogin_workingLoginAndLogout :
  let s := sample.session false
             {[ userKey := VInt 23; userTimeout := VTime 300000001000 ]} in
  let s1 := sample.session false
              {[ userKey := VInt 23; userTimeout := VTime (-299999998000) ]} in
  ((fun σ1 => (Code (resp σ1), Header (resp σ1) !! "Location",
               Values <$> heap σ1 !! 1%positive)) ∘ snd
     <$> Logout sample.testHandler 2000 (sample.get ["AuthSession=MTU"])
           (sample.world s)
   = Some (Some 303, Some ["/landingRedir"], Some (Values s1))) ∧
  ((fun σ1 => (Code (resp σ1), Body (resp σ1))) ∘ snd
     <$> Authenticate sample.testHandler (fun _ w => Write "profile" w)
           3000 (sample.get ["AuthSession=MTU"]) (sample.world s1)
   = Some (Some 401, "Not Authorized" +:+ newline)).
Proof. split; vm_compute; reflexivity. Qed.

Example NewHandler_without_store :
  NewHandler sample.testAuthProvider [sample.SetLifetime time.Minute]
  = inr errNoStore.
Proof. reflexivity. Qed.

Example NewHandler_failing_option :
  NewHandler sample.testAuthProvider
    [sample.SetStore sample.cookieStore; sample.failing;
     sample.SetLifetime time.Minute]
  = inr (errForeign "option failed").
Proof. reflexivity. Qed.

Example AuthenticateRequest_store_error :
  let ah := set_store sample.brokenStore sample.testHandler in
  fst <$> AuthenticateRequest ah 1000 (sample.get ["AuthSession=garbage"])
            (sample.world (sample.session true ∅))
  = Some (VNil, Some (errForeign "securecookie: the value is not valid")).
Proof. vm_compute. reflexivity. Qed.

(** ** More on the handler: outcomes, frames and windows *)

(** Every run of [Authorize], by the place where it ends. *)
Lemma Authorize_cases ah st eh now r σ :
  store ah = Some st →
  errorHandler ah = Some eh →
  (∀ l, Get st r (sessionName ah) = inl l → is_Some (heap σ !! l)) →
  ∃ σ1,
    Authorize ah now r σ = Some (tt, σ1) ∧
    ((Method r ≠ "POST" ∧
      σ1 = handled eh r errMethodShouldBePOST StatusBadRequest σ) ∨
     (∃ err, Method r = "POST" ∧ ParseForm r = inr err ∧
        σ1 = handled eh r err StatusInternalServerError σ) ∨
     (∃ form, Method r = "POST" ∧ ParseForm r = inl form ∧
        (url_Get form "user" = "" ∨ url_Get form "pass" = "") ∧
        σ1 = handled eh r ErrBadLogin StatusBadRequest σ) ∨
     (∃ form, Method r = "POST" ∧ ParseForm r = inl form ∧
        url_Get form "user" ≠ "" ∧ url_Get form "pass" ≠ "" ∧
        let σ' := logged [EvCheck (url_Get form "user") (url_Get form "pass")] σ in
        ((∃ id err,
            Check (auther ah) (url_Get form "user") (url_Get form "pass")
              = (id, Some err) ∧
            σ1 = handled eh r err
                   (if decide (err = ErrBadLogin) then StatusBadRequest
                    else StatusInternalServerError) σ') ∨
         (∃ id,
            Check (auther ah) (url_Get form "user") (url_Get form "pass")
              = (id, None) ∧
            ((∃ err, Get st r (sessionName ah) = inr err ∧
                σ1 = handled eh r err StatusInternalServerError
                       (logged [EvGet (sessionName ah)] σ')) ∨
             (∃ l s w,
                Get st r (sessionName ah) = inl l ∧ heap σ !! l = Some s ∧
                let s1 := loggedIn (now + lifetime ah) id s in
                ((∃ err, Save st r s1 (resp σ) = (w, Some err) ∧
                    σ1 = handled eh r err StatusInternalServerError
                           (saved (sessionName ah) l s1 w σ')) ∨
                 (Save st r s1 (resp σ) = (w, None) ∧
                  σ1 = redirected (redirLanding ah) StatusSeeOther
                         (saved (sessionName ah) l s1 w σ'))))))))).
Proof.
  intros Hst Heh Hheap.
  destruct (decide (Method r = "POST")) as [Hm | Hm].
  2: { eexists. split; [by apply Authorize_bad_method |]. by left. }
  destruct (ParseForm r) as [form | err] eqn:Hform.
  2: { eexists. split; [by apply Authorize_bad_form |].
       right; left. by exists err. }
  destruct (decide (url_Get form "user" = "")) as [Hu | Hu].
  { eexists. split; [apply Authorize_empty with form; eauto |].
    right; right; left. exists form. auto. }
  destruct (decide (url_Get form "pass" = "")) as [Hp | Hp].
  { eexists. split; [apply Authorize_empty with form; eauto |].
    right; right; left. exists form. auto. }
  destruct (Check (auther ah) (url_Get form "user") (url_Get form "pass"))
    as [id [err |]] eqn:Hcheck.
  { eexists. split; [by apply Authorize_check_failed with id |].
    right; right; right. exists form. repeat (split; [done |]).
    left. by exists id, err. }
  destruct (Get st r (sessionName ah)) as [l | err] eqn:Hget.
  2: { eexists. split; [by apply Authorize_Get_failed with st id |].
       right; right; right. exists form. repeat (split; [done |]).
       right. exists id. split; [done |]. left. by exists err. }
  destruct (Hheap l eq_refl) as [s Hl].
  destruct (Save st r (loggedIn (now + lifetime ah) id s) (resp σ))
    as [w [err |]] eqn:Hsave.
  - eexists. split; [by apply Authorize_Save_failed with st |].
    right; right; right. exists form. repeat (split; [done |]).
    right. exists id. split; [done |]. right. exists l, s, w.
    repeat (split; [done |]). left. by exists err.
  - eexists. split; [by apply Authorize_saved with st |].
    right; right; right. exists form. repeat (split; [done |]).
    right. exists id. split; [done |]. right. exists l, s, w.
    repeat (split; [done |]). by right.
Qed.

(** Every run of [Logout], by the place where it ends. *)
Lemma Logout_cases ah st eh now r σ :
  store ah = Some st →
  errorHandler ah = Some eh →
  (∀ l, Get st r (sessionName ah) = inl l → is_Some (heap σ !! l)) →
  ∃ σ1,
    Logout ah now r σ = Some (tt, σ1) ∧
    ((∃ err, Get st r (sessionName ah) = inr err ∧
        σ1 = handled eh r err StatusInternalServerError
               (logged [EvGet (sessionName ah)] σ)) ∨
     (∃ l s w,
        Get st r (sessionName ah) = inl l ∧ heap σ !! l = Some s ∧
        let s1 := loggedOut (time.Add now (time.neg (lifetime ah))) s in
        ((∃ err, Save st r s1 (resp σ) = (w, Some err) ∧
            σ1 = handled eh r err StatusInternalServerError
                   (saved (sessionName ah) l s1 w σ)) ∨
         (Save st r s1 (resp σ) = (w, None) ∧
          σ1 = redirected (redirLogout ah) StatusSeeOther
                 (saved (sessionName ah) l s1 w σ))))).
Proof.
  intros Hst Heh Hheap.
  destruct (Get st r (sessionName ah)) as [l | err] eqn:Hget.
  2: { eexists. split; [by apply Logout_Get_failed with st |].
       left. by exists err. }
  destruct (Hheap l eq_refl) as [s Hl].
  destruct (Save st r (loggedOut (time.Add now (time.neg (lifetime ah))) s)
              (resp σ)) as [w [err |]] eqn:Hsave.
  - eexists. split.
    + rewrite (Logout_run ah st now r σ l s w (Some err) Hst Hget Hl Hsave).
      by apply call_errorHandler_run.
    + right. exists l, s, w. repeat (split; [done |]). left. by exists err.
  - eexists. split.
    + by rewrite (Logout_run ah st now r σ l s w None Hst Hget Hl Hsave).
    + right. exists l, s, w. repeat (split; [done |]). by right.
Qed.

Ltac refute :=
  let H := fresh in
  intros H; try discriminate H;
  destruct H as (? & ? & ? & ? & ? & ? & ? & ? & ? & ? & ? & ? & ?);
  repeat match goal with
         | H1 : ?a = _, H2 : ?a = _ |- _ => rewrite H1 in H2; simplify_eq
         end;
  simplify_eq; try tauto; try congruence.

(** X1: every run of [Authorize] answers the request exactly once, with
    one call of the error handler or with one redirect, and that call is
    the last thing it does.  It redirects to the landing path exactly when
    the request is a POST whose form parses with a user and a password,
    the verifier accepts them, and the store hands out and saves the
    session; in every other case the answer is the error handler with 400
    or 500. *)
Theorem Authorize_answers_once ah st eh now r σ :
  store ah = Some st →
  errorHandler ah = Some eh →
  (∀ l, Get st r (sessionName ah) = inl l → is_Some (heap σ !! l)) →
  ∃ σ1 e,
    Authorize ah now r σ = Some (tt, σ1) ∧
    List.filter responds (new_events σ σ1) = [e] ∧
    last (new_events σ σ1) = Some e ∧
    ((∃ err code, e = EvErrorHandler err code ∧ (code = 400 ∨ code = 500)) ∨
     e = EvRedirect (redirLanding ah) 303) ∧
    (e = EvRedirect (redirLanding ah) 303 ↔
     Method r = "POST" ∧
     ∃ form id l s w,
       ParseForm r = inl form ∧
       url_Get form "user" ≠ "" ∧ url_Get form "pass" ≠ "" ∧
       Check (auther ah) (url_Get form "user") (url_Get form "pass") = (id, None) ∧
       Get st r (sessionName ah) = inl l ∧
       heap σ !! l = Some s ∧
       Save st r (loggedIn (now + lifetime ah) id s) (resp σ) = (w, None)).
Proof.
  intros Hst Heh Hheap.
  destruct (Authorize_cases ah st eh now r σ Hst Heh Hheap) as (σ1 & Hrun & Hcase).
  exists σ1. rewrite Hrun. cbv zeta in Hcase.
  destruct Hcase as
    [[Hm ->]
    | [(err & Hm & Hform & ->)
    | [(form & Hm & Hform & Hempty & ->)
    | (form & Hm & Hform & Hu & Hp &
       [(id & err & Hcheck & ->)
       | (id & Hcheck &
          [(err & Hget & ->)
          | (l & s & w & Hget & Hl &
             [(err & Hsave & ->) | (Hsave & ->)])])])]]].
  - eexists. split; [done |]. events. do 2 (split; [reflexivity |]).
    split; [left; eauto |]. split; [done | refute].
  - eexists. split; [done |]. events. do 2 (split; [reflexivity |]).
    split; [left; eauto |]. split; [done | refute].
  - eexists. split; [done |]. events. do 2 (split; [reflexivity |]).
    split; [left; eauto |]. split; [done | refute].
  - eexists. split; [done |]. events. do 2 (split; [reflexivity |]).
    split; [left; case_decide; eauto |]. split; [done | refute].
  - eexists. split; [done |]. events. do 2 (split; [reflexivity |]).
    split; [left; eauto |]. split; [done | refute].
  - eexists. split; [done |]. events. do 2 (split; [reflexivity |]).
    split; [left; eauto |]. split; [done | refute].
  - eexists. split; [done |]. events. do 2 (split; [reflexivity |]).
    split; [by right |]. split; [| done].
    intros _. split; [done |]. by exists form, id, l, s, w.
Qed.

Lemma Authorize_answers_once_witness :
  let ah := sample.testHandler in
  let σ := sample.world (sample.session true ∅) in
  store ah = Some sample.cookieStore ∧
  errorHandler ah = Some defaultErrorHandler ∧
  ∃ σ1,
    Authorize ah 1000 (sample.login "testUser" "wrong") σ = Some (tt, σ1) ∧
    List.filter responds (new_events σ σ1) = [EvErrorHandler ErrBadLogin 400].
Proof.
  cbv zeta. split; [reflexivity | split; [reflexivity |]].
  destruct (Authorize_answers_once sample.testHandler sample.cookieStore
              defaultErrorHandler 1000 (sample.login "testUser" "wrong")
              (sample.world (sample.session true ∅)) eq_refl eq_refl)
    as (σ1 & e & Hrun & Hone & _).
  { intros l [= <-]. by eexists. }
  exists σ1. split; [exact Hrun |].
  rewrite Hone. vm_compute in Hrun. injection Hrun as <-.
  vm_compute in Hone. by injection Hone as <-.
Defined.

(** X2: every run of [Logout] answers the request exactly once.  It
    redirects to the logout path exactly when the store hands out and
    saves the session; otherwise the answer is the error handler with 500
    and the error of the store.  Whether the session held an identity
    plays no part. *)
Theorem Logout_answers_once ah st eh now r σ :
  store ah = Some st →
  errorHandler ah = Some eh →
  (∀ l, Get st r (sessionName ah) = inl l → is_Some (heap σ !! l)) →
  ∃ σ1 e,
    Logout ah now r σ = Some (tt, σ1) ∧
    List.filter responds (new_events σ σ1) = [e] ∧
    last (new_events σ σ1) = Some e ∧
    ((∃ err, e = EvErrorHandler err 500 ∧
        (Get st r (sessionName ah) = inr err ∨
         ∃ l s w, Get st r (sessionName ah) = inl l ∧ heap σ !! l = Some s ∧
           Save st r (loggedOut (time.Add now (time.neg (lifetime ah))) s) (resp σ)
           = (w, Some err))) ∨
     (e = EvRedirect (redirLogout ah) 303 ∧
      ∃ l s w, Get st r (sessionName ah) = inl l ∧ heap σ !! l = Some s ∧
        Save st r (loggedOut (time.Add now (time.neg (lifetime ah))) s) (resp σ)
        = (w, None))).
Proof.
  intros Hst Heh Hheap.
  destruct (Logout_cases ah st eh now r σ Hst Heh Hheap) as (σ1 & Hrun & Hcase).
  exists σ1. rewrite Hrun. cbv zeta in Hcase.
  destruct Hcase as
    [(err & Hget & ->)
    | (l & s & w & Hget & Hl & [(err & Hsave & ->) | (Hsave & ->)])].
  - eexists. split; [done |]. events. do 2 (split; [reflexivity |]).
    left. exists err. auto.
  - eexists. split; [done |]. events. do 2 (split; [reflexivity |]).
    left. exists err. split; [done |]. right. by exists l, s, w.
  - eexists. split; [done |]. events. do 2 (split; [reflexivity |]).
    right. split; [done |]. by exists l, s, w.
Qed.

Lemma Logout_answers_once_witness :
  let ah := set_store sample.brokenStore sample.testHandler in
  let σ := sample.world (sample.session true ∅) in
  ∃ σ1,
    Logout ah 1000 (sample.get []) σ = Some (tt, σ1) ∧
    List.filter responds (new_events σ σ1)
    = [EvErrorHandler (errForeign "securecookie: the value is not valid") 500].
Proof.
  cbv zeta.
  destruct (Logout_answers_once
              (set_store sample.brokenStore sample.testHandler)
              sample.brokenStore defaultErrorHandler 1000 (sample.get [])
              (sample.world (sample.session true ∅)) eq_refl eq_refl)
    as (σ1 & e & Hrun & Hone & _).
  { intros l [=]. }
  exists σ1. split; [exact Hrun |].
  rewrite Hone. vm_compute in Hrun. injection Hrun as <-.
  vm_compute in Hone. by injection Hone as <-.
Defined.

(** X3: a handler that [NewHandler] returns has no zero field left among
    the ones it defaults: the lifetime is not zero, the two redirect paths
    and the session name are not empty, and the store and both handlers
    are set. *)
Theorem NewHandler_invariant a options ah :
  NewHandler a options = inl ah →
  lifetime ah ≠ 0 ∧
  redirLanding ah ≠ "" ∧
  redirLogout ah ≠ "" ∧
  sessionName ah ≠ "" ∧
  is_Some (store ah) ∧
  is_Some (errorHandler ah) ∧
  is_Some (notAuthorizedHandler ah).
Proof.
  unfold NewHandler.
  destruct (applyOptions options (zeroHandler a)) as [cfg | ?]; [| done].
  destruct cfg as [a' st' eh' h' land out life name].
  cbn [store]. destruct st' as [st |]; [| done].
  cbn [lifetime redirLanding redirLogout sessionName errorHandler
       notAuthorizedHandler auther store].
  destruct (decide (life = 0)); cbn;
    destruct (decide (land = "")); cbn;
    destruct (decide (out = "")); cbn;
    destruct (decide (name = "")); cbn;
    destruct eh' as [eh |]; cbn;
    destruct h' as [h |]; cbn;
    intros [= <-]; cbn; repeat split; try done; by eexists.
Qed.

Lemma NewHandler_invariant_witness :
  let ah := sample.testHandler in
  lifetime ah ≠ 0 ∧ redirLogout ah = "/landingRedir" ∧ sessionName ah ≠ "".
Proof.
  cbv zeta.
  destruct (NewHandler_invariant sample.testAuthProvider
              [sample.SetStore sample.cookieStore;
               sample.SetLanding "/landingRedir"]
              sample.testHandler eq_refl)
    as (Hlife & _ & _ & Hname & _).
  split; [exact Hlife |]. split; [reflexivity | exact Hname].
Defined.




(** X5: the session that a successful [Authorize] leaves authenticates
    exactly up to the login time plus the lifetime: a later request that
    presents it gets the identity when its time is not after that instant,
    and [ErrNotAuthorized] once it is. *)
Theorem Authorize_session_window ah st now r σ form id l s w :
  store ah = Some st →
  Method r = "POST" →
  ParseForm r = inl form →
  url_Get form "user" ≠ "" →
  url_Get form "pass" ≠ "" →
  Check (auther ah) (url_Get form "user") (url_Get form "pass") = (id, None) →
  Get st r (sessionName ah) = inl l →
  heap σ !! l = Some s →
  Save st r (loggedIn (now + lifetime ah) id s) (resp σ) = (w, None) →
  ∃ σ1 s1,
    Authorize ah now r σ = Some (tt, σ1) ∧
    heap σ1 !! l = Some s1 ∧
    ∀ now' r' σ' l' s',
      Get st r' (sessionName ah) = inl l' →
      heap σ' !! l' = Some s' →
      presents s' s1 →
      (fst <$> AuthenticateRequest ah now' r' σ' = Some (id, None)
       ↔ now' ≤ now + lifetime ah) ∧
      (now + lifetime ah < now' →
       fst <$> AuthenticateRequest ah now' r' σ'
       = Some (VNil, Some ErrNotAuthorized)).
Proof.
  intros Hst Hm Hform Hu Hp Hcheck Hget Hl Hsave.
  eexists _, (loggedIn (now + lifetime ah) id s).
  split; [by apply Authorize_saved with st |].
  split; [cbn; by rewrite lookup_insert_eq |].
  intros now' r' σ' l' s' Hget' Hl' Hpres.
  assert (Values s' !! userTimeout = Some (VTime (now + lifetime ah))) as Ht.
  { destruct Hpres as [_ ->]. cbn. by rewrite lookup_insert_eq. }
  assert (now + lifetime ah < now' →
          fst <$> AuthenticateRequest ah now' r' σ'
          = Some (VNil, Some ErrNotAuthorized)) as Hlate.
  { intros Hlt.
    by rewrite (AuthenticateRequest_expired ah st now' r' σ' l' s'
                  (now + lifetime ah)). }
  split; [| done]. split.
  - intros Hok. destruct (Z.le_gt_cases now' (now + lifetime ah)) as [| Hgt];
      [done |].
    rewrite Hlate in Hok by lia. discriminate.
  - intros Hle.
    by rewrite (presents_accept ah st now' r' σ' l' s' s id (now + lifetime ah)).
Qed.

Lemma Authorize_session_window_witness :
  let ah := sample.handler sample.testAuthProvider (5 * time.Minute) in
  let s' := sample.session false
              {[ userKey := VInt 23; userTimeout := VTime 300000001000 ]} in
  fst <$> AuthenticateRequest ah 300000001001 (sample.get ["AuthSession=MTU"])
            (sample.world s')
  = Some (VNil, Some ErrNotAuthorized).
Proof.
  cbv zeta.
  assert (url_Get {[ "user" := ["testUser"]; "pass" := ["testPassw"] ]} "user" ≠ "")
    as Hu by (vm_compute; discriminate).
  assert (url_Get {[ "user" := ["testUser"]; "pass" := ["testPassw"] ]} "pass" ≠ "")
    as Hp by (vm_compute; discriminate).
  destruct (Authorize_session_window
              (sample.handler sample.testAuthProvider (5 * time.Minute))
              sample.cookieStore 1000 (sample.login "testUser" "testPassw")
              (sample.world (sample.session true ∅))
              {[ "user" := ["testUser"]; "pass" := ["testPassw"] ]}
              (VInt 23) 1%positive (sample.session true ∅)
              (Header_Set "Set-Cookie" "AuthSession=MTU" newResponse)
              eq_refl eq_refl eq_refl Hu Hp eq_refl eq_refl eq_refl eq_refl)
    as (σ1 & s1 & Hrun & Hs1 & Hlater).
  vm_compute in Hrun. injection Hrun as <-.
  vm_compute in Hs1. injection Hs1 as <-.
  apply (Hlater 300000001001 (sample.get ["AuthSession=MTU"])
           (sample.world (sample.session false
              {[ userKey := VInt 23; userTimeout := VTime 300000001000 ]}))
           1%positive
           (sample.session false
              {[ userKey := VInt 23; userTimeout := VTime 300000001000 ]})
           eq_refl eq_refl).
  - split; vm_compute; reflexivity.
  - vm_compute. reflexivity.
Defined.

(** X6: [SaveUserSession] writes the identity key and the expiry key and
    nothing else: every other value of the session, its freshness flag, its
    cookie options and every other session object stay as they were.  The
    two writes are not undone when the store fails to save. *)
Theorem SaveUserSession_frame ah st now r id σ l s :
  store ah = Some st →
  Get st r (sessionName ah) = inl l →
  heap σ !! l = Some s →
  ∃ w err σ1 s1,
    Save st r s1 (resp σ) = (w, err) ∧
    SaveUserSession ah now r id σ = Some (err, σ1) ∧
    heap σ1 !! l = Some s1 ∧
    Values s1 !! userKey = Some id ∧
    Values s1 !! userTimeout = Some (VTime (now + lifetime ah)) ∧
    (∀ k, k ≠ userKey → k ≠ userTimeout → Values s1 !! k = Values s !! k) ∧
    IsNew s1 = IsNew s ∧
    Options s1 = Options s ∧
    (∀ l', l' ≠ l → heap σ1 !! l' = heap σ !! l') ∧
    resp σ1 = w.
Proof.
  intros Hst Hget Hl.
  destruct (Save st r (loggedIn (time.Add now (lifetime ah)) id s) (resp σ))
    as [w err] eqn:Hsave.
  exists w, err. eexists _, (loggedIn (time.Add now (lifetime ah)) id s).
  split; [done |].
  split; [by apply SaveUserSession_run with st |].
  split; [cbn; by rewrite lookup_insert_eq |].
  split; [cbn; rewrite lookup_insert_ne by done; by rewrite lookup_insert_eq |].
  split; [cbn; by rewrite lookup_insert_eq |].
  split; [intros k Hk1 Hk2; cbn; by rewrite !lookup_insert_ne |].
  repeat (split; [done |]).
  split; [| done]. intros l' Hl'. cbn. by rewrite lookup_insert_ne.
Qed.

Lemma SaveUserSession_frame_witness :
  let ah := sample.testHandler in
  let s := sample.session true {[ stringKey "theme" := VString "dark" ]} in
  ∃ err σ1 s1,
    SaveUserSession ah 1000 (sample.get []) (VInt 23) (sample.world s)
    = Some (err, σ1) ∧
    heap σ1 !! 1%positive = Some s1 ∧
    Values s1 !! userKey = Some (VInt 23) ∧
    Values s1 !! stringKey "theme" = Some (VString "dark") ∧
    IsNew s1 = true.
Proof.
  cbv zeta.
  destruct (SaveUserSession_frame sample.testHandler sample.cookieStore 1000
              (sample.get []) (VInt 23)
              (sample.world (sample.session true
                 {[ stringKey "theme" := VString "dark" ]}))
              1%positive _ eq_refl eq_refl eq_refl)
    as (w & err & σ1 & s1 & _ & Hrun & Hs1 & Hid & _ & Hother & Hnew & _).
  exists err, σ1, s1. repeat (split; [done |]).
  split; [by rewrite Hother |]. by rewrite Hnew.
Defined.

Lemma loggedIn_again t1 t2 id1 id2 s :
  loggedIn t2 id2 (loggedIn t1 id1 s) = loggedIn t2 id2 s.
Proof.
  unfold loggedIn. cbn [IsNew Values Options]. f_equal. apply map_eq. intros k.
  destruct (decide (k = userTimeout)) as [-> | Hk1];
    [by rewrite !lookup_insert_eq |].
  rewrite !(lookup_insert_ne _ userTimeout) by done.
  destruct (decide (k = userKey)) as [-> | Hk2];
    [by rewrite !lookup_insert_eq |].
  by rewrite !lookup_insert_ne.
Qed.

(** X7: a login does not authenticate the request that performs it when
    the session is new.  [SaveUserSession] leaves the freshness flag as it
    is, so an [AuthenticateRequest] on the same request afterwards returns
    the identity when the session was loaded from a cookie, and
    [ErrNotAuthorized] when the store had just created it. *)
Theorem SaveUserSession_same_request ah st now now' r id σ l s :
  store ah = Some st →
  Get st r (sessionName ah) = inl l →
  heap σ !! l = Some s →
  now' ≤ now + lifetime ah →
  ∃ err σ1,
    SaveUserSession ah now r id σ = Some (err, σ1) ∧
    fst <$> AuthenticateRequest ah now' r σ1
    = Some (if IsNew s then (VNil, Some ErrNotAuthorized) else (id, None)).
Proof.
  intros Hst Hget Hl Hle.
  destruct (Save st r (loggedIn (time.Add now (lifetime ah)) id s) (resp σ))
    as [w err] eqn:Hsave.
  exists err. eexists. split; [by apply SaveUserSession_run with st |].
  set (s1 := loggedIn (time.Add now (lifetime ah)) id s).
  assert (heap (saved (sessionName ah) l s1 w σ) !! l = Some s1) as Hl1.
  { cbn. by rewrite lookup_insert_eq. }
  destruct (IsNew s) eqn:Hnew.
  - rewrite (AuthenticateRequest_reject ah st now' r _ l s1 Hst Hget Hl1);
      [done |].
    intros (Hfresh & _). cbn in Hfresh. congruence.
  - rewrite (AuthenticateRequest_accept ah st now' r _ l s1 id
               (now + lifetime ah) Hst Hget Hl1); try done.
    + cbn. rewrite lookup_insert_ne by done. by rewrite lookup_insert_eq.
    + cbn. by rewrite lookup_insert_eq.
Qed.

Lemma SaveUserSession_same_request_witness :
  ∃ err σ1,
    SaveUserSession sample.testHandler 1000 (sample.get []) (VInt 23)
      (sample.world (sample.session true ∅)) = Some (err, σ1) ∧
    fst <$> AuthenticateRequest sample.testHandler 1000 (sample.get []) σ1
    = Some (VNil, Some ErrNotAuthorized).
Proof.
  destruct (SaveUserSession_same_request sample.testHandler sample.cookieStore
              1000 1000 (sample.get []) (VInt 23)
              (sample.world (sample.session true ∅)) 1%positive
              (sample.session true ∅) eq_refl eq_refl eq_refl)
    as (err & σ1 & Hrun & Hreq).
  { vm_compute. discriminate. }
  by exists err, σ1.
Defined.

(** X8: a second login on the same session replaces the first.  After two
    calls of [SaveUserSession] the session objects are the ones a single
    call with the second identity and the second time leaves: nothing of
    the first identity or of the first expiry remains. *)
Theorem SaveUserSession_twice ah st now1 now2 r id1 id2 σ l s :
  store ah = Some st →
  Get st r (sessionName ah) = inl l →
  heap σ !! l = Some s →
  ∃ err1 σ1 err2 σ2 err σ',
    SaveUserSession ah now1 r id1 σ = Some (err1, σ1) ∧
    SaveUserSession ah now2 r id2 σ1 = Some (err2, σ2) ∧
    SaveUserSession ah now2 r id2 σ = Some (err, σ') ∧
    heap σ2 = heap σ' ∧
    heap σ2 !! l = Some (loggedIn (now2 + lifetime ah) id2 s).
Proof.
  intros Hst Hget Hl.
  set (s1 := loggedIn (time.Add now1 (lifetime ah)) id1 s).
  destruct (Save st r s1 (resp σ)) as [w1 err1] eqn:Hsave1.
  pose proof (SaveUserSession_run ah st now1 r id1 σ l s w1 err1
                Hst Hget Hl Hsave1) as Hrun1.
  fold s1 in Hrun1.
  set (σ1 := saved (sessionName ah) l s1 w1 σ) in *.
  assert (heap σ1 !! l = Some s1) as Hl1 by (cbn; by rewrite lookup_insert_eq).
  destruct (Save st r (loggedIn (time.Add now2 (lifetime ah)) id2 s1) (resp σ1))
    as [w2 err2] eqn:Hsave2.
  pose proof (SaveUserSession_run ah st now2 r id2 σ1 l s1 w2 err2
                Hst Hget Hl1 Hsave2) as Hrun2.
  destruct (Save st r (loggedIn (time.Add now2 (lifetime ah)) id2 s) (resp σ))
    as [w err] eqn:Hsave.
  pose proof (SaveUserSession_run ah st now2 r id2 σ l s w err
                Hst Hget Hl Hsave) as Hrun.
  exists err1, σ1, err2. eexists. exists err. eexists.
  repeat (split; [done |]).
  unfold s1. rewrite loggedIn_again. cbn.
  split; [by rewrite insert_insert_eq | by rewrite lookup_insert_eq].
Qed.

Lemma SaveUserSession_twice_witness :
  ∃ err1 σ1 err2 σ2,
    SaveUserSession sample.testHandler 1000 (sample.get []) (VInt 23)
      (sample.world (sample.session false ∅)) = Some (err1, σ1) ∧
    SaveUserSession sample.testHandler 2000 (sample.get []) (VString "root") σ1
      = Some (err2, σ2) ∧
    Values <$> heap σ2 !! 1%positive
    = Some {[ userKey := VString "root"; userTimeout := VTime 300000002000 ]}.
Proof.
  destruct (SaveUserSession_twice sample.testHandler sample.cookieStore
              1000 2000 (sample.get []) (VInt 23) (VString "root")
              (sample.world (sample.session false ∅)) 1%positive
              (sample.session false ∅) eq_refl eq_refl eq_refl)
    as (err1 & σ1 & err2 & σ2 & _ & _ & Hrun1 & Hrun2 & _ & _ & Hl).
  exists err1, σ1, err2, σ2. repeat (split; [done |]).
  etrans; [exact (f_equal (fmap Values) Hl) |]. vm_compute. reflexivity.
Defined.

(** X9: the middleware adds nothing of its own.  It leaves every session
    object as it was, asks the store for the session and for nothing else,
    and hands the response either to the downstream handler or to the
    not-authorized handler exactly as it received it. *)
Theorem Authenticate_transparent ah st h next now r σ :
  store ah = Some st →
  notAuthorizedHandler ah = Some h →
  (∀ l, Get st r (sessionName ah) = inl l → is_Some (heap σ !! l)) →
  ∃ σ2,
    Authenticate ah next now r σ = Some (tt, σ2) ∧
    heap σ2 = heap σ ∧
    ((new_events σ σ2 = [EvGet (sessionName ah); EvNext] ∧
      resp σ2 = next r (resp σ)) ∨
     (new_events σ σ2 = [EvGet (sessionName ah); EvNotAuthorized] ∧
      resp σ2 = h r (resp σ))).
Proof.
  intros Hst Hh Hheap.
  destruct (AuthenticateRequest_total ah st now r σ Hst Hheap) as [[id err] Hrun].
  unfold Authenticate, mbind, M_bind. rewrite Hrun.
  destruct err; run; [rewrite Hh |]; eexists; (split; [reflexivity |]);
    (split; [reflexivity |]); [right | left]; split; try reflexivity;
    by events.
Qed.

Lemma Authenticate_transparent_witness :
  let s := sample.session false
             {[ userKey := VInt 23; userTimeout := VTime 300000001000 ]} in
  ∃ σ2,
    Authenticate sample.testHandler (fun _ w => Write "profile" w) 2000
      (sample.get ["AuthSession=MTU"]) (sample.world s) = Some (tt, σ2) ∧
    heap σ2 = heap (sample.world s) ∧
    new_events (sample.world s) σ2 = [EvGet "AuthSession"; EvNext].
Proof.
  cbv zeta.
  destruct (Authenticate_transparent sample.testHandler sample.cookieStore
              (defaultNotAuthorizedHandler
                 (set_errorHandler defaultErrorHandler sample.testHandler))
              (fun _ w => Write "profile" w) 2000
              (sample.get ["AuthSession=MTU"])
              (sample.world (sample.session false
                 {[ userKey := VInt 23; userTimeout := VTime 300000001000 ]}))
              eq_refl eq_refl)
    as (σ2 & Hrun & Hheap & Hcase).
  { intros l [= <-]. by eexists. }
  exists σ2. repeat (split; [done |]).
  vm_compute in Hrun. injection Hrun as <-. vm_compute. reflexivity.
Defined.

(** X10: [Logout] only moves the expiry.  A request that later presents
    the session [Logout] left, still holding an identity, gets that
    identity exactly when its time is not after the logout time minus the
    lifetime, and [ErrNotAuthorized] after.  For a positive lifetime that
    instant is before the logout; for a negative one it lies in the
    future, and the session stays valid until then. *)
Theorem Logout_session_window ah st eh now r σ l s id :
  store ah = Some st →
  errorHandler ah = Some eh →
  time.MinInt64 < lifetime ah ≤ time.MaxInt64 →
  Get st r (sessionName ah) = inl l →
  heap σ !! l = Some s →
  Values s !! userKey = Some id →
  ∃ σ1 s1,
    Logout ah now r σ = Some (tt, σ1) ∧
    heap σ1 !! l = Some s1 ∧
    ∀ now' r' σ' l' s',
      Get st r' (sessionName ah) = inl l' →
      heap σ' !! l' = Some s' →
      presents s' s1 →
      (fst <$> AuthenticateRequest ah now' r' σ' = Some (id, None)
       ↔ now' ≤ now - lifetime ah) ∧
      (now - lifetime ah < now' →
       fst <$> AuthenticateRequest ah now' r' σ'
       = Some (VNil, Some ErrNotAuthorized)).
Proof.
  intros Hst Heh Hlife Hget Hl Hid.
  assert (time.Add now (time.neg (lifetime ah)) = now - lifetime ah) as Hneg.
  { unfold time.Add. rewrite neg_exact by done. lia. }
  set (s1 := loggedOut (time.Add now (time.neg (lifetime ah))) s).
  assert (∃ σ1, Logout ah now r σ = Some (tt, σ1) ∧ heap σ1 !! l = Some s1)
    as (σ1 & Hrun & Hl1).
  { destruct (Save st r s1 (resp σ)) as [w err] eqn:Hsave.
    rewrite (Logout_run ah st now r σ l s w err Hst Hget Hl Hsave).
    destruct err as [err |].
    - rewrite (call_errorHandler_run _ _ _ _ _ _ Heh).
      eexists. split; [done |]. cbn. by rewrite lookup_insert_eq.
    - eexists. split; [done |]. cbn. by rewrite lookup_insert_eq. }
  exists σ1, s1. repeat (split; [done |]).
  intros now' r' σ' l' s' Hget' Hl' [Hnew Hvals].
  assert (Values s' !! userTimeout = Some (VTime (now - lifetime ah))) as Ht.
  { rewrite Hvals. cbn. by rewrite lookup_insert_eq, Hneg. }
  assert (Values s' !! userKey = Some id) as Hid'.
  { rewrite Hvals. cbn. by rewrite lookup_insert_ne. }
  assert (now - lifetime ah < now' →
          fst <$> AuthenticateRequest ah now' r' σ'
          = Some (VNil, Some ErrNotAuthorized)) as Hlate.
  { intros Hlt.
    by rewrite (AuthenticateRequest_expired ah st now' r' σ' l' s'
                  (now - lifetime ah)). }
  split; [| done]. split.
  - intros Hok. destruct (Z.le_gt_cases now' (now - lifetime ah)) as [| Hgt];
      [done |].
    rewrite Hlate in Hok by lia. discriminate.
  - intros Hle.
    by rewrite (AuthenticateRequest_accept ah st now' r' σ' l' s' id
                  (now - lifetime ah)).
Qed.

Lemma Logout_session_window_witness :
  let ah := sample.handler sample.testAuthProvider (- time.Minute) in
  let s1 := sample.session false
              {[ userKey := VInt 23; userTimeout := VTime 60000002000 ]} in
  time.MinInt64 < lifetime ah ≤ time.MaxInt64 ∧
  fst <$> AuthenticateRequest ah 3000 (sample.get ["AuthSession=MTU"])
            (sample.world s1)
  = Some (VInt 23, None).
Proof.
  cbv zeta.
  assert (time.MinInt64
          < lifetime (sample.handler sample.testAuthProvider (- time.Minute))
          ≤ time.MaxInt64) as Hlife by (vm_compute; split; congruence).
  split; [exact Hlife |].
  assert (Values (sample.session false
                    {[ userKey := VInt 23; userTimeout := VTime 1000 ]})
          !! userKey = Some (VInt 23)) as Hid by (vm_compute; reflexivity).
  destruct (Logout_session_window
              (sample.handler sample.testAuthProvider (- time.Minute))
              sample.cookieStore defaultErrorHandler 2000
              (sample.get ["AuthSession=MTU"])
              (sample.world (sample.session false
                 {[ userKey := VInt 23; userTimeout := VTime 1000 ]}))
              1%positive _ (VInt 23) eq_refl eq_refl Hlife eq_refl eq_refl Hid)
    as (σ1 & s1 & Hrun & Hs1 & Hlater).
  vm_compute in Hrun. injection Hrun as <-.
  vm_compute in Hs1. injection Hs1 as <-.
  apply (Hlater 3000 (sample.get ["AuthSession=MTU"])
           (sample.world (sample.session false
              {[ userKey := VInt 23; userTimeout := VTime 60000002000 ]}))
           1%positive
           (sample.session false
              {[ userKey := VInt 23; userTimeout := VTime 60000002000 ]})
           eq_refl eq_refl).
  - split; vm_compute; reflexivity.
  - vm_compute. discriminate.
Defined.

(** ** Package encodedTime *)

Lemma wrap64_small z :
  time.MinInt64 ≤ z ≤ time.MaxInt64 → time.wrap64 z = z.
Proof.
  unfold time.MinInt64, time.MaxInt64, time.wrap64.
  change (2 ^ 63) with 9223372036854775808.
  change (2 ^ 64) with 18446744073709551616.
  intros Hz. rewrite Z.mod_small by lia. lia.
Qed.

Lemma UnixMilli_floor t :
  -9223372036854775 ≤ encodedTime.unixSec t < 9223372036854775 →
  encodedTime.UnixMilli t = t / 1000000.
Proof.
  unfold encodedTime.UnixMilli, encodedTime.unixSec, encodedTime.nsec.
  intros Hsec.
  assert (0 ≤ t mod 1000000000 < 1000000000) as Hns
    by (apply Z.mod_pos_bound; lia).
  assert (0 ≤ t mod 1000000000 / 1000000 ≤ 999) as Hms.
  { split; [apply Z.div_pos; lia |].
    apply Z.lt_succ_r. apply Z.div_lt_upper_bound; lia. }
  rewrite (wrap64_small (t / 1000000000 * 1000)).
  2: { unfold time.MinInt64, time.MaxInt64.
       change (2 ^ 63) with 9223372036854775808. lia. }
  rewrite wrap64_small.
  2: { unfold time.MinInt64, time.MaxInt64.
       change (2 ^ 63) with 9223372036854775808. lia. }
  rewrite (Z.div_mod t 1000000000) at 3 by lia.
  replace (1000000000 * (t / 1000000000) + t mod 1000000000)
    with (t / 1000000000 * 1000 * 1000000 + t mod 1000000000) by lia.
  by rewrite Z.div_add_l.
Qed.

Lemma FormatInt_parse i :
  NilZero.int_of_string (encodedTime.FormatInt i) = Some (Z.to_int i).
Proof.
  unfold encodedTime.FormatInt. apply NilZero.isi.
  - destruct i; cbn; [discriminate | | discriminate].
    intros [= H]. by apply Unsigned.to_uint_nonnil in H.
  - destruct i; cbn; [discriminate | discriminate |].
    intros [= H]. by apply Unsigned.to_uint_nonnil in H.
Qed.


(** X11: [NewMillisecs] takes seconds and [MarshalJSON] prints
    milliseconds: for every count of seconds from -9223372036854775 up to,
    but not including, 9223372036854775 (so that the milliseconds fit an
    [int64]), the JSON of [NewMillisecs(secs)] is the decimal numeral of
    [secs * 1000], with a nil error. *)
Theorem MarshalJSON_NewMillisecs secs :
  -9223372036854775 ≤ secs < 9223372036854775 →
  encodedTime.MarshalJSON (encodedTime.NewMillisecs secs)
  = (encodedTime.FormatInt (secs * 1000), None).
Proof.
  intros Hsecs. unfold encodedTime.MarshalJSON, encodedTime.NewMillisecs.
  cbv zeta. f_equal. f_equal.
  assert (encodedTime.unixSec (encodedTime.Unix secs 0) = secs) as Hsec.
  { unfold encodedTime.unixSec, encodedTime.Unix.
    rewrite Z.add_0_r. by rewrite Z.div_mul. }
  rewrite UnixMilli_floor by (by rewrite Hsec).
  unfold encodedTime.Unix. rewrite Z.add_0_r.
  replace (secs * 1000000000) with (secs * 1000 * 1000000) by lia.
  by rewrite Z.div_mul.
Qed.

Lemma MarshalJSON_NewMillisecs_witness :
  encodedTime.MarshalJSON (encodedTime.NewMillisecs 12345) = ("12345000", None).
Proof.
  rewrite (MarshalJSON_NewMillisecs 12345) by lia. reflexivity.
Defined.

(** X12: [MarshalJSON] never fails, and what it prints is a decimal
    integer that reads back as the instant in whole milliseconds since the
    epoch, rounded down (so towards the past, also before 1970). *)
Theorem MarshalJSON_reads_back t :
  -9223372036854775 ≤ encodedTime.unixSec t < 9223372036854775 →
  snd (encodedTime.MarshalJSON t) = None ∧
  Z.of_int <$> NilZero.int_of_string (fst (encodedTime.MarshalJSON t))
  = Some (t / 1000000).
Proof.
  intros Hsec. split; [done |].
  unfold encodedTime.MarshalJSON. cbn [fst].
  rewrite FormatInt_parse. cbn. rewrite DecimalZ.of_to.
  by rewrite UnixMilli_floor.
Qed.

Lemma MarshalJSON_reads_back_witness :
  fst (encodedTime.MarshalJSON (-1)) = "-1" ∧
  Z.of_int <$> NilZero.int_of_string (fst (encodedTime.MarshalJSON (-1)))
  = Some (-1).
Proof.
  split; [reflexivity |].
  destruct (MarshalJSON_reads_back (-1)) as [_ Hback];
    [vm_compute; split; congruence |].
  exact Hback.
Defined.



(** ** Package render: options *)

(** X14: an option of the renderer that returns an error has changed
    nothing.  [AddTemplates] fails exactly on an empty list,
    [InjectTemplateFunc] exactly on a name that is taken, [SetLogger] and
    [SetErrorHandler] exactly on nil; [BaseTemplates], [ErrorTemplate] and
    [FuncMap] never fail.  In every failing case the renderer is as it
    was. *)
Theorem render_options_fail_cleanly r :
  (∀ files, snd (render.AddTemplates files r) ≠ None ↔ files = []) ∧
  (∀ name fn, snd (render.InjectTemplateFunc name fn r) ≠ None
              ↔ is_Some (render.tplFuncInjectors r !! name)) ∧
  (∀ l, snd (render.SetLogger l r) ≠ None ↔ l = None) ∧
  (∀ fn, snd (render.SetErrorHandler fn r) ≠ None ↔ fn = None) ∧
  (∀ bases, snd (render.BaseTemplates bases r) = None) ∧
  (∀ name, snd (render.ErrorTemplate name r) = None) ∧
  (∀ m, snd (render.FuncMap m r) = None) ∧
  (∀ files, snd (render.AddTemplates files r) ≠ None →
     fst (render.AddTemplates files r) = r) ∧
  (∀ name fn, snd (render.InjectTemplateFunc name fn r) ≠ None →
     fst (render.InjectTemplateFunc name fn r) = r) ∧
  (∀ l, snd (render.SetLogger l r) ≠ None → fst (render.SetLogger l r) = r) ∧
  (∀ fn, snd (render.SetErrorHandler fn r) ≠ None →
     fst (render.SetErrorHandler fn r) = r).
Proof.
  split; [| split; [| split; [| split; [| split; [| split; [| split;
    [| split; [| split; [| split]]]]]]]]].
  - intros files. unfold render.AddTemplates.
    destruct files; cbn; split; try done; by intros [].
  - intros name fn. unfold render.InjectTemplateFunc.
    destruct (render.tplFuncInjectors r !! name); cbn; split; try done;
      first [by eexists | by intros [] | by intros [? ?]].
  - intros [l |]; cbn; split; try done; by intros [].
  - intros [fn |]; cbn; split; try done; by intros [].
  - done.
  - done.
  - done.
  - intros files. unfold render.AddTemplates.
    destruct files; cbn; try done; by intros [].
  - intros name fn. unfold render.InjectTemplateFunc.
    destruct (render.tplFuncInjectors r !! name); cbn; try done; by intros [].
  - intros [l |]; cbn; try done; by intros [].
  - intros [fn |]; cbn; try done; by intros [].
Qed.

(** X15: [InjectTemplateFunc] keeps one injector per name, the first.
    Under a free name it registers the injector and leaves every other
    name and every other field alone; after that a second injection under
    the same name fails with a message that quotes the name, and the first
    injector stays. *)
Theorem InjectTemplateFunc_first_wins r name fn fn' :
  render.tplFuncInjectors r !! name = None →
  ∃ r1,
    render.InjectTemplateFunc name fn r = (r1, None) ∧
    render.tplFuncInjectors r1 !! name = Some fn ∧
    (∀ other, other ≠ name →
       render.tplFuncInjectors r1 !! other = render.tplFuncInjectors r !! other) ∧
    render.templateFiles r1 = render.templateFiles r ∧
    render.baseTemplates r1 = render.baseTemplates r ∧
    render.errorTemplate r1 = render.errorTemplate r ∧
    render.funcMap r1 = render.funcMap r ∧
    render.log r1 = render.log r ∧
    render.errHandler r1 = render.errHandler r ∧
    render.InjectTemplateFunc name fn' r1
    = (r1, Some (errForeign ("injection " +:+ name +:+ " name already taken"))).
Proof.
  intros Hfree. unfold render.InjectTemplateFunc at 1. rewrite Hfree.
  eexists. split; [reflexivity |].
  split; [cbn; by rewrite lookup_insert_eq |].
  split; [intros other Hne; cbn; by rewrite lookup_insert_ne |].
  repeat (split; [reflexivity |]).
  unfold render.InjectTemplateFunc. cbn. by rewrite lookup_insert_eq.
Qed.

Lemma InjectTemplateFunc_first_wins_witness :
  let addr : render.FuncInjector := fun _ _ => inl (VString "localhost:1234") in
  let other : render.FuncInjector := fun _ _ => inl VNil in
  ∃ r1,
    render.InjectTemplateFunc "addr" addr render.empty = (r1, None) ∧
    render.InjectTemplateFunc "addr" other r1
    = (r1, Some (errForeign "injection addr name already taken")).
Proof.
  cbv zeta.
  destruct (InjectTemplateFunc_first_wins render.empty "addr"
              (fun _ _ => inl (VString "localhost:1234"))
              (fun _ _ => inl VNil) eq_refl)
    as (r1 & Hfirst & _ & _ & _ & _ & _ & _ & _ & _ & Hsecond).
  exists r1. by split.
Defined.

(** X16: [AddTemplates] of the renderer replaces the list of templates;
    it does not add to it.  After two calls with lists that are not empty
    the renderer is the one the second call alone leaves, and a call with
    an empty list in between changes nothing. *)
Theorem render_AddTemplates_replaces r files1 files2 :
  files2 ≠ [] →
  fst (render.AddTemplates files2 (fst (render.AddTemplates files1 r)))
  = fst (render.AddTemplates files2 r) ∧
  render.templateFiles (fst (render.AddTemplates files2 r)) = files2 ∧
  fst (render.AddTemplates [] (fst (render.AddTemplates files2 r)))
  = fst (render.AddTemplates files2 r).
Proof.
  intros Hne. unfold render.AddTemplates.
  destruct files2 as [| f2 files2]; [done |].
  destruct files1; cbn; done.
Qed.

Lemma render_AddTemplates_replaces_witness :
  render.templateFiles
    (fst (render.AddTemplates ["bug1.tmpl"]
            (fst (render.AddTemplates ["testFuncMap.tmpl"] render.empty))))
  = ["bug1.tmpl"].
Proof.
  destruct (render_AddTemplates_replaces render.empty
              ["testFuncMap.tmpl"] ["bug1.tmpl"]) as (Htwice & Hset & _);
    [discriminate |].
  by rewrite Htwice.
Defined.

Lemma render_options_fail_cleanly_witness :
  snd (render.AddTemplates [] render.empty) ≠ None ∧
  fst (render.AddTemplates [] render.empty) = render.empty.
Proof.
  destruct (render_options_fail_cleanly render.empty)
    as (Hfails & _ & _ & _ & _ & _ & _ & Hclean & _).
  split; [by apply Hfails | by apply Hclean, Hfails].
Defined.

(** ** Package templates *)


(** X17: the package-level [AddTemplates] and [SetBaseTemplates] add to
    their lists.  After any sequence of calls the list of templates is the
    old list followed by the arguments of the calls, in the order of the
    calls, and likewise for the base templates; the asset function is the
    one of the last [SetBaseTemplates].  Nothing else changes. *)
Theorem templates_lists_accumulate st
    (adds : list (list string))
    (bases : list (option templates.assetFunc * list string)) :
  let st1 := foldl (fun st files => templates.AddTemplates files st) st adds in
  let st2 := foldl (fun st b => templates.SetBaseTemplates b.1 b.2 st) st bases in
  templates.templateFiles st1 = (templates.templateFiles st ++ concat adds)%list ∧
  templates.baseTemplateFiles st1 = templates.baseTemplateFiles st ∧
  templates.asset st1 = templates.asset st ∧
  templates.templates st1 = templates.templates st ∧
  templates.appRouter st1 = templates.appRouter st ∧
  templates.baseTemplateFiles st2
  = (templates.baseTemplateFiles st ++ concat (snd <$> bases))%list ∧
  templates.asset st2 = default (templates.asset st) (fst <$> last bases) ∧
  templates.templateFiles st2 = templates.templateFiles st ∧
  templates.templates st2 = templates.templates st ∧
  templates.appRouter st2 = templates.appRouter st.
Proof.
  cbv zeta. split; [| split; [| split; [| split; [| split]]]].
  1-5: revert st; induction adds as [| files adds IH]; intros st; cbn;
    [by rewrite ?app_nil_r | rewrite IH; cbn; by rewrite <- ?app_assoc].
  revert st. induction bases as [| [fn files] bases IH]; intros st.
  { cbn. by rewrite app_nil_r. }
  cbn [foldl fst snd].
  destruct (IH (templates.SetBaseTemplates fn files st))
    as (Hb & Ha & Ht & Hts & Hr).
  rewrite Hb, Ha, Ht, Hts, Hr. cbn.
  rewrite <- app_assoc. repeat split.
  destruct bases as [| b bases]; [reflexivity |].
  rewrite last_cons_cons.
  destruct (last (b :: bases)) as [x |] eqn:Hlast; [done |].
  by apply last_None in Hlast.
Qed.



Lemma urlParams_None ps acc :
  templates.urlParams ps acc = None ↔ ∃ v, templates.POther v ∈ ps.
Proof.
  revert acc. induction ps as [| p ps IH]; intros acc; cbn.
  - split; [done |]. intros [v Hv]. by apply elem_of_nil in Hv.
  - destruct p as [v | v | v | v]; rewrite ?IH.
    1-3: split; [intros [x Hx]; exists x; by right |];
         intros [x Hx]; apply elem_of_cons in Hx as [Hx | Hx]; [done |];
         by exists x.
    split; [| done]. intros _. exists v. by left.
Qed.

Lemma urlParams_Some ps acc params :
  templates.urlParams ps acc = Some params →
  ∃ tail,
    params = (acc ++ tail)%list ∧
    Forall2 (fun p s =>
               match p with
               | templates.PString v => s = v
               | templates.PInt v | templates.PInt64 v =>
                   s = encodedTime.FormatInt v
               | templates.POther _ => False
               end) ps tail.
Proof.
  revert acc. induction ps as [| p ps IH]; intros acc; cbn.
  - intros [= <-]. exists []. by rewrite app_nil_r.
  - destruct p as [v | v | v | v]; [| | | done];
      intros Hrun; destruct (IH _ Hrun) as (tail & -> & Hall);
      eexists (_ :: tail); rewrite <- app_assoc; (split; [done |]);
      by constructor.
Qed.

(** X19: [urlTo] looks the route up before it looks at the parameters.
    For a name without a route it returns the empty URL whatever the
    parameters are.  For a route that exists it ends the program exactly
    when some parameter is neither a string, an [int] nor an [int64];
    otherwise the route receives one text per parameter, in order, strings
    as they are and integers in decimal, and a failure of the route gives
    the empty URL. *)
Theorem urlTo_outcomes st router routeName ps :
  templates.appRouter st = Some router →
  (templates.Router_Get router routeName = None →
     templates.urlTo st routeName ps = Some "") ∧
  (∀ route, templates.Router_Get router routeName = Some route →
     (templates.urlTo st routeName ps = None ↔ ∃ v, templates.POther v ∈ ps) ∧
     ((∀ v, templates.POther v ∉ ps) →
        ∃ params,
          Forall2 (fun p s =>
                     match p with
                     | templates.PString v => s = v
                     | templates.PInt v | templates.PInt64 v =>
                         s = encodedTime.FormatInt v
                     | templates.POther _ => False
                     end) ps params ∧
          templates.urlTo st routeName ps
          = Some (match templates.URLPath route params with
                  | inl u => u
                  | inr _ => ""
                  end))).
Proof.
  intros Hrouter. unfold templates.urlTo. rewrite Hrouter. split.
  - by intros ->.
  - intros route ->. split.
    + rewrite <- (urlParams_None ps []).
      destruct (templates.urlParams ps []) as [params |]; [| done].
      by destruct (templates.URLPath route params).
    + intros Hvalid.
      destruct (templates.urlParams ps []) as [params |] eqn:Hparams.
      * destruct (urlParams_Some ps [] params Hparams) as (tail & -> & Hall).
        exists tail. split; [done |]. cbn.
        by destruct (templates.URLPath route tail).
      * apply urlParams_None in Hparams as [v Hv]. by destruct (Hvalid v).
Qed.

Lemma urlTo_outcomes_witness :
  let route := {| templates.URLPath := fun params =>
                    match params with
                    | [user; page] => inl ("/users/" +:+ user +:+ "/page/" +:+ page)
                    | _ => inr (errForeign "mux: number of parameters must be multiple of 2")
                    end |} in
  let router := {| templates.Router_Get := fun name =>
                     if decide (name = "user") then Some route else None |} in
  let st := {| templates.asset := None; templates.templateFiles := [];
               templates.baseTemplateFiles := []; templates.templates := ∅;
               templates.appRouter := Some router |} in
  templates.urlTo st "nowhere" [templates.POther VNil] = Some "" ∧
  templates.urlTo st "user" [templates.PString "alice"; templates.POther VNil] = None ∧
  templates.urlTo st "user" [templates.PString "alice"; templates.PInt 7]
  = Some "/users/alice/page/7".
Proof.
  cbv zeta. split; [| split].
  - match goal with
    | |- templates.urlTo ?st ?n ?ps = _ =>
        apply (proj1 (urlTo_outcomes st _ n ps eq_refl))
    end.
    reflexivity.
  - match goal with
    | |- templates.urlTo ?st ?n ?ps = _ =>
        destruct (proj2 (urlTo_outcomes st _ n ps eq_refl) _ eq_refl)
          as [Hfatal _]
    end.
    apply Hfatal. exists VNil. right. by left.
  - reflexivity.
Defined.
